(** * The Swarmie gripper plugin: a shallow embedding of GripperPlugin.cpp

    The development follows [src/gazebo_plugins/src/GripperPlugin/GripperPlugin.cpp].
    The plugin is a Gazebo model plugin: [Load] reads its configuration from
    an SDF element, and [updateWorldEventHandler] is polled by the physics
    engine at the start of every update iteration.

    Modelling conventions.
    - C++ [float] and [double] values are modelled by exact rationals ([Q]);
      the casts between them are identities and there is no rounding, no
      infinity and no NaN.  Module [Ieee] follows loadUpdatePeriod on the
      values of the update rate that are not finite.
    - [gazebo::common::Time] is a number of seconds ([Q]); [operator-] is
      subtraction and [Float()] is the identity.  [gazebo::math::Angle] is
      its value in radians.
    - [exit(1)] ends a computation with the outcome [Exited 1]; the state
      paired with it is the state of the process at the call.
    - Statements handed to rosconsole are appended to [rosout] item by item,
      as the [<<] chain of the macro lists them. *)

From Stdlib Require Import QArith Qminmax Lqa ZArith Lia List String Ascii Bool.
Import ListNotations.

Local Open Scope string_scope.
Local Open Scope Q_scope.

(** ** Outcomes of code that may call [exit] *)

Inductive Outcome (A : Type) : Type :=
| Returned (a : A)
| Exited (status : Z).

Arguments Returned {A} a.
Arguments Exited {A} status.

Definition returns {A : Type} (o : Outcome A) : bool :=
  match o with
  | Returned _ => true
  | Exited _ => false
  end.

(** ** rosconsole: levels and streamed statements *)

Module Ros.

Inductive Level : Type := LDebug | LInfo | LError.

(** What a [<<] chain can carry in this file. *)
Inductive StreamItem : Type :=
| Str (s : string)
| Num (x : Q)
| Setw (n : Z)
| Endl.

Record LogLine : Type := mkLogLine {
  level : Level;
  stream : list StreamItem
}.

Definition is_error (l : LogLine) : bool :=
  match level l with
  | LError => true
  | _ => false
  end.

(** The statement streams the string [s] / the number [x]. *)
Definition names (s : string) (l : LogLine) : Prop := In (Str s) (stream l).
Definition cites (x : Q) (l : LogLine) : Prop := In (Num x) (stream l).

Inductive Callback : Type := setWristAngleHandler_cb | setFingerAngleHandler_cb.

(** [ros::SubscribeOptions::create<std_msgs::Float32>(topic, queue_size, callback, ...)]. *)
Record SubscribeOptions : Type := mkSubscribeOptions {
  topic : string;
  queue_size : nat;
  callback : Callback
}.

End Ros.

(** ** The SDF configuration element *)

Module Sdf.

#[warnings="-register-all"]
Inductive Element : Type :=
| MkElement (text : string) (children : list (string * Element)).

Definition text (e : Element) : string :=
  match e with MkElement t _ => t end.

Definition children (e : Element) : list (string * Element) :=
  match e with MkElement _ c => c end.

(** [GetElement] is only called under a [HasElement] guard in the plugin;
    the first child with the tag is the one returned. *)
Fixpoint lookup (tag : string) (l : list (string * Element)) : option Element :=
  match l with
  | [] => None
  | (t, e) :: l' => if String.eqb t tag then Some e else lookup tag l'
  end.

Definition GetElement (e : Element) (tag : string) : option Element :=
  lookup tag (children e).

Definition HasElement (e : Element) (tag : string) : bool :=
  match GetElement e tag with
  | Some _ => true
  | None => false
  end.

(** [sdf::Element::Get<T>()]: the conversion of an element's text to [T]
    belongs to the SDF library; the plugin is verified for every such
    conversion.  For [std::string] it is the text itself. *)
Class Get (T : Type) : Type := get : Element -> T.

#[global] Instance Get_string : Get string := text.

End Sdf.

(** ** gazebo::math and gazebo::physics *)

Module Math.

Record Vector3 : Type := mkVector3 { x : Q; y : Q; z : Q }.
Record Vector2d : Type := mkVector2d { x2 : Q; y2 : Q }.

End Math.

Module Physics.

Definition Time : Type := Q.

Record Joint : Type := mkJoint {
  jointName : string;      (* GetName() *)
  angle : Q;               (* GetAngle(0).Radian() *)
  force : Q                (* the force last given to SetForce(0, _) *)
}.

Record World : Type := mkWorld { GetSimTime : Time }.

Record Model : Type := mkModel {
  GetName : string;
  joints : list Joint;
  GetWorld : World
}.

(** A [JointPtr] is null ([None]) or the position of a joint of the model;
    [GetJoint] gives the first joint of that name. *)
Definition JointPtr : Type := option nat.

Fixpoint find_joint (name : string) (l : list Joint) (i : nat) : JointPtr :=
  match l with
  | [] => None
  | j :: l' => if String.eqb (jointName j) name then Some i
               else find_joint name l' (S i)
  end.

Definition GetJoint (m : Model) (name : string) : JointPtr :=
  find_joint name (joints m) 0.

Definition deref (m : Model) (p : JointPtr) : option Joint :=
  match p with
  | Some i => nth_error (joints m) i
  | None => None
  end.

(** The plugin dereferences only pointers that [loadJoint] returned, which
    are never null; on a pointer that designates no joint the readers below
    give 0 and the empty name, and [SetForce] changes nothing. *)
Definition JointGetName (m : Model) (p : JointPtr) : string :=
  match deref m p with
  | Some j => jointName j
  | None => EmptyString
  end.

Definition GetAngle (m : Model) (p : JointPtr) : Q :=
  match deref m p with
  | Some j => angle j
  | None => 0
  end.

Fixpoint set_force_at (i : nat) (f : Q) (l : list Joint) : list Joint :=
  match l, i with
  | [], _ => []
  | j :: l', O => mkJoint (jointName j) (angle j) f :: l'
  | j :: l', S i' => j :: set_force_at i' f l'
  end.

Definition SetForce (p : JointPtr) (f : Q) (m : Model) : Model :=
  match p with
  | Some i => mkModel (GetName m) (set_force_at i f (joints m)) (GetWorld m)
  | None => m
  end.

End Physics.

(** ** PIDController.h: the settings structure filled in by [loadPIDSettings] *)

Module PIDController.

Record PIDSettings : Type := mkPIDSettings {
  Kp : Q;
  Ki : Q;
  Kd : Q;
  dt : Q;
  min : Q;
  max : Q
}.

(** Modelled from the spec: the state of one controller (PIDController.cpp
    is not part of the sources at hand).  The integral accumulator and the
    previous error both start at 0. *)
Record PIDControllerState : Type := mkPIDControllerState {
  integral : Q;
  previousError : Q
}.

(** Modelled from the spec: a controller is its immutable settings and its
    mutable state. *)
Record PIDController : Type := mkPIDController {
  settings : PIDSettings;
  state : PIDControllerState
}.

(** Modelled from the spec: settings are invalid when dt <= 0 or
    min > max. *)
Definition valid (s : PIDSettings) : bool :=
  negb (Qle_bool (dt s) 0) && Qle_bool (min s) (max s).

(** Modelled from the spec: a new controller starts with zero state. *)
Definition init (s : PIDSettings) : PIDController :=
  mkPIDController s (mkPIDControllerState 0 0).

(** Modelled from the spec: bounding a force to the range [lo, hi]. *)
Definition clamp (raw lo hi : Q) : Q :=
  if Qlt_le_dec hi raw then hi
  else if Qlt_le_dec raw lo then lo
  else raw.

(** Modelled from the spec: section 4.1, compute(setpoint, measurement).
    The result is the force together with the controller after the call. *)
Definition compute (c : PIDController) (setpoint measurement : Q)
  : Q * PIDController :=
  let s := settings c in
  let error := setpoint - measurement in
  let integral' := integral (state c) + error * dt s in
  let derivative := (error - previousError (state c)) / dt s in
  let raw := Kp s * error + Ki s * integral' + Kd s * derivative in
  let output := clamp raw (min s) (max s) in
  (output, mkPIDController s (mkPIDControllerState integral' error)).

End PIDController.

(** ** GripperManager.h: the value types the plugin exchanges with the manager *)

Module GripperManager.

Import PIDController.

Record GripperJointNames : Type := mkGripperJointNames {
  wristJointName : string;
  leftFingerJointName : string;
  rightFingerJointName : string
}.

Record GripperState : Type := mkGripperState {
  wristAngle : Q;
  leftFingerAngle : Q;
  rightFingerAngle : Q
}.

Record GripperForces : Type := mkGripperForces {
  wristForce : Q;
  leftFingerForce : Q;
  rightFingerForce : Q
}.

(** The two operations of the manager that the plugin calls.  The plugin
    is verified against this interface; [construct] may end the process. *)
Class Api (Manager : Type) : Type := {
  construct : GripperJointNames -> PIDSettings -> PIDSettings -> Outcome Manager;
  getForces : Manager -> GripperState -> GripperState -> GripperForces * Manager
}.

(** Modelled from the spec: the manager owns the joint names and three
    controllers (GripperManager.cpp is not part of the sources at hand). *)
Record GripperManager : Type := mkGripperManager {
  jointNames : GripperJointNames;
  wristController : PIDController;
  leftFingerController : PIDController;
  rightFingerController : PIDController
}.

(** Modelled from the spec: section 4.2, construction contract.  The same
    finger settings parameterize the left and the right controller, and
    construction is process-fatal when either settings object is invalid.
    The spec does not fix the exit status; 1 is the status of every
    [exit] in the plugin. *)
Definition spec_construct (names : GripperJointNames)
    (wristPID fingerPID : PIDSettings) : Outcome GripperManager :=
  if valid wristPID && valid fingerPID
  then Returned (mkGripperManager names (init wristPID) (init fingerPID)
                                  (init fingerPID))
  else Exited 1.

(** Modelled from the spec: section 4.2, getForces(desired, current). *)
Definition spec_getForces (m : GripperManager)
    (desired current : GripperState) : GripperForces * GripperManager :=
  let (wf, wc) := compute (wristController m)
                          (wristAngle desired) (wristAngle current) in
  let (lf, lc) := compute (leftFingerController m)
                          (leftFingerAngle desired) (leftFingerAngle current) in
  let (rf, rc) := compute (rightFingerController m)
                          (rightFingerAngle desired) (rightFingerAngle current) in
  (mkGripperForces wf lf rf, mkGripperManager (jointNames m) wc lc rc).

Definition spec_Api : Api GripperManager :=
  {| construct := spec_construct; getForces := spec_getForces |}.

End GripperManager.

(** ** The plugin object and the process it lives in *)

Module GripperPlugin.

Import Ros Sdf Math Physics PIDController GripperManager.

Section Plugin.

(** GripperManager.cpp and the SDF conversions are outside this file:
    the plugin is verified for every implementation of them. *)
Context {Manager : Type} {API : Api Manager}.
Context {Get_float : Get Q}.
Context {Get_Vector3 : Get Vector3}.
Context {Get_Vector2d : Get Vector2d}.

(** The data members of the class (GripperPlugin.h).  The model pointer
    is modelled by the model itself, which the physics engine changes
    between two polls; [updateConnection] and [rosQueueThread] say
    whether the handler is connected and the queue thread started. *)
Record GripperPlugin : Type := mkGripperPlugin {
  model : Model;
  sdf : Element;
  updateConnection : bool;
  rosNode : option string;
  wristAngleSubscriber : option SubscribeOptions;
  fingerAngleSubscriber : option SubscribeOptions;
  rosQueueThread : bool;
  isDebuggingModeActive : bool;
  debugUpdatePeriod : Q;
  updatePeriod : Q;
  previousUpdateTime : Time;
  previousDebugUpdateTime : Time;
  wristJoint : JointPtr;
  leftFingerJoint : JointPtr;
  rightFingerJoint : JointPtr;
  gripperManager : Manager;
  desiredWristAngle : Q;
  desiredFingerAngle : Q
}.

Definition set_model (v : Model) (p : GripperPlugin) : GripperPlugin :=
  mkGripperPlugin v (sdf p) (updateConnection p) (rosNode p)
    (wristAngleSubscriber p) (fingerAngleSubscriber p) (rosQueueThread p)
    (isDebuggingModeActive p) (debugUpdatePeriod p) (updatePeriod p)
    (previousUpdateTime p) (previousDebugUpdateTime p) (wristJoint p)
    (leftFingerJoint p) (rightFingerJoint p) (gripperManager p)
    (desiredWristAngle p) (desiredFingerAngle p).

Definition set_sdf (v : Element) (p : GripperPlugin) : GripperPlugin :=
  mkGripperPlugin (model p) v (updateConnection p) (rosNode p)
    (wristAngleSubscriber p) (fingerAngleSubscriber p) (rosQueueThread p)
    (isDebuggingModeActive p) (debugUpdatePeriod p) (updatePeriod p)
    (previousUpdateTime p) (previousDebugUpdateTime p) (wristJoint p)
    (leftFingerJoint p) (rightFingerJoint p) (gripperManager p)
    (desiredWristAngle p) (desiredFingerAngle p).

Definition set_updateConnection (v : bool) (p : GripperPlugin) : GripperPlugin :=
  mkGripperPlugin (model p) (sdf p) v (rosNode p) (wristAngleSubscriber p)
    (fingerAngleSubscriber p) (rosQueueThread p) (isDebuggingModeActive p)
    (debugUpdatePeriod p) (updatePeriod p) (previousUpdateTime p)
    (previousDebugUpdateTime p) (wristJoint p) (leftFingerJoint p)
    (rightFingerJoint p) (gripperManager p) (desiredWristAngle p)
    (desiredFingerAngle p).

Definition set_rosNode (v : option string) (p : GripperPlugin) : GripperPlugin :=
  mkGripperPlugin (model p) (sdf p) (updateConnection p) v
    (wristAngleSubscriber p) (fingerAngleSubscriber p) (rosQueueThread p)
    (isDebuggingModeActive p) (debugUpdatePeriod p) (updatePeriod p)
    (previousUpdateTime p) (previousDebugUpdateTime p) (wristJoint p)
    (leftFingerJoint p) (rightFingerJoint p) (gripperManager p)
    (desiredWristAngle p) (desiredFingerAngle p).

Definition set_wristAngleSubscriber (v : option SubscribeOptions) (p : GripperPlugin) : GripperPlugin :=
  mkGripperPlugin (model p) (sdf p) (updateConnection p) (rosNode p) v
    (fingerAngleSubscriber p) (rosQueueThread p) (isDebuggingModeActive p)
    (debugUpdatePeriod p) (updatePeriod p) (previousUpdateTime p)
    (previousDebugUpdateTime p) (wristJoint p) (leftFingerJoint p)
    (rightFingerJoint p) (gripperManager p) (desiredWristAngle p)
    (desiredFingerAngle p).

Definition set_fingerAngleSubscriber (v : option SubscribeOptions) (p : GripperPlugin) : GripperPlugin :=
  mkGripperPlugin (model p) (sdf p) (updateConnection p) (rosNode p)
    (wristAngleSubscriber p) v (rosQueueThread p)
    (isDebuggingModeActive p) (debugUpdatePeriod p) (updatePeriod p)
    (previousUpdateTime p) (previousDebugUpdateTime p) (wristJoint p)
    (leftFingerJoint p) (rightFingerJoint p) (gripperManager p)
    (desiredWristAngle p) (desiredFingerAngle p).

Definition set_rosQueueThread (v : bool) (p : GripperPlugin) : GripperPlugin :=
  mkGripperPlugin (model p) (sdf p) (updateConnection p) (rosNode p)
    (wristAngleSubscriber p) (fingerAngleSubscriber p) v
    (isDebuggingModeActive p) (debugUpdatePeriod p) (updatePeriod p)
    (previousUpdateTime p) (previousDebugUpdateTime p) (wristJoint p)
    (leftFingerJoint p) (rightFingerJoint p) (gripperManager p)
    (desiredWristAngle p) (desiredFingerAngle p).

Definition set_isDebuggingModeActive (v : bool) (p : GripperPlugin) : GripperPlugin :=
  mkGripperPlugin (model p) (sdf p) (updateConnection p) (rosNode p)
    (wristAngleSubscriber p) (fingerAngleSubscriber p) (rosQueueThread p)
    v (debugUpdatePeriod p) (updatePeriod p) (previousUpdateTime p)
    (previousDebugUpdateTime p) (wristJoint p) (leftFingerJoint p)
    (rightFingerJoint p) (gripperManager p) (desiredWristAngle p)
    (desiredFingerAngle p).

Definition set_debugUpdatePeriod (v : Q) (p : GripperPlugin) : GripperPlugin :=
  mkGripperPlugin (model p) (sdf p) (updateConnection p) (rosNode p)
    (wristAngleSubscriber p) (fingerAngleSubscriber p) (rosQueueThread p)
    (isDebuggingModeActive p) v (updatePeriod p) (previousUpdateTime p)
    (previousDebugUpdateTime p) (wristJoint p) (leftFingerJoint p)
    (rightFingerJoint p) (gripperManager p) (desiredWristAngle p)
    (desiredFingerAngle p).

Definition set_updatePeriod (v : Q) (p : GripperPlugin) : GripperPlugin :=
  mkGripperPlugin (model p) (sdf p) (updateConnection p) (rosNode p)
    (wristAngleSubscriber p) (fingerAngleSubscriber p) (rosQueueThread p)
    (isDebuggingModeActive p) (debugUpdatePeriod p) v
    (previousUpdateTime p) (previousDebugUpdateTime p) (wristJoint p)
    (leftFingerJoint p) (rightFingerJoint p) (gripperManager p)
    (desiredWristAngle p) (desiredFingerAngle p).

Definition set_previousUpdateTime (v : Time) (p : GripperPlugin) : GripperPlugin :=
  mkGripperPlugin (model p) (sdf p) (updateConnection p) (rosNode p)
    (wristAngleSubscriber p) (fingerAngleSubscriber p) (rosQueueThread p)
    (isDebuggingModeActive p) (debugUpdatePeriod p) (updatePeriod p) v
    (previousDebugUpdateTime p) (wristJoint p) (leftFingerJoint p)
    (rightFingerJoint p) (gripperManager p) (desiredWristAngle p)
    (desiredFingerAngle p).

Definition set_previousDebugUpdateTime (v : Time) (p : GripperPlugin) : GripperPlugin :=
  mkGripperPlugin (model p) (sdf p) (updateConnection p) (rosNode p)
    (wristAngleSubscriber p) (fingerAngleSubscriber p) (rosQueueThread p)
    (isDebuggingModeActive p) (debugUpdatePeriod p) (updatePeriod p)
    (previousUpdateTime p) v (wristJoint p) (leftFingerJoint p)
    (rightFingerJoint p) (gripperManager p) (desiredWristAngle p)
    (desiredFingerAngle p).

Definition set_wristJoint (v : JointPtr) (p : GripperPlugin) : GripperPlugin :=
  mkGripperPlugin (model p) (sdf p) (updateConnection p) (rosNode p)
    (wristAngleSubscriber p) (fingerAngleSubscriber p) (rosQueueThread p)
    (isDebuggingModeActive p) (debugUpdatePeriod p) (updatePeriod p)
    (previousUpdateTime p) (previousDebugUpdateTime p) v
    (leftFingerJoint p) (rightFingerJoint p) (gripperManager p)
    (desiredWristAngle p) (desiredFingerAngle p).

Definition set_leftFingerJoint (v : JointPtr) (p : GripperPlugin) : GripperPlugin :=
  mkGripperPlugin (model p) (sdf p) (updateConnection p) (rosNode p)
    (wristAngleSubscriber p) (fingerAngleSubscriber p) (rosQueueThread p)
    (isDebuggingModeActive p) (debugUpdatePeriod p) (updatePeriod p)
    (previousUpdateTime p) (previousDebugUpdateTime p) (wristJoint p) v
    (rightFingerJoint p) (gripperManager p) (desiredWristAngle p)
    (desiredFingerAngle p).

Definition set_rightFingerJoint (v : JointPtr) (p : GripperPlugin) : GripperPlugin :=
  mkGripperPlugin (model p) (sdf p) (updateConnection p) (rosNode p)
    (wristAngleSubscriber p) (fingerAngleSubscriber p) (rosQueueThread p)
    (isDebuggingModeActive p) (debugUpdatePeriod p) (updatePeriod p)
    (previousUpdateTime p) (previousDebugUpdateTime p) (wristJoint p)
    (leftFingerJoint p) v (gripperManager p) (desiredWristAngle p)
    (desiredFingerAngle p).

Definition set_gripperManager (v : Manager) (p : GripperPlugin) : GripperPlugin :=
  mkGripperPlugin (model p) (sdf p) (updateConnection p) (rosNode p)
    (wristAngleSubscriber p) (fingerAngleSubscriber p) (rosQueueThread p)
    (isDebuggingModeActive p) (debugUpdatePeriod p) (updatePeriod p)
    (previousUpdateTime p) (previousDebugUpdateTime p) (wristJoint p)
    (leftFingerJoint p) (rightFingerJoint p) v (desiredWristAngle p)
    (desiredFingerAngle p).

Definition set_desiredWristAngle (v : Q) (p : GripperPlugin) : GripperPlugin :=
  mkGripperPlugin (model p) (sdf p) (updateConnection p) (rosNode p)
    (wristAngleSubscriber p) (fingerAngleSubscriber p) (rosQueueThread p)
    (isDebuggingModeActive p) (debugUpdatePeriod p) (updatePeriod p)
    (previousUpdateTime p) (previousDebugUpdateTime p) (wristJoint p)
    (leftFingerJoint p) (rightFingerJoint p) (gripperManager p) v
    (desiredFingerAngle p).

Definition set_desiredFingerAngle (v : Q) (p : GripperPlugin) : GripperPlugin :=
  mkGripperPlugin (model p) (sdf p) (updateConnection p) (rosNode p)
    (wristAngleSubscriber p) (fingerAngleSubscriber p) (rosQueueThread p)
    (isDebuggingModeActive p) (debugUpdatePeriod p) (updatePeriod p)
    (previousUpdateTime p) (previousDebugUpdateTime p) (wristJoint p)
    (leftFingerJoint p) (rightFingerJoint p) (gripperManager p)
    (desiredWristAngle p) v.

(** The process: the plugin object, the statements handed to rosconsole
    so far (oldest first), the level of the default logger and the
    answer of [ros::isInitialized()]. *)
Record Process : Type := mkProcess {
  this : GripperPlugin;
  rosout : list LogLine;
  loggerLevel : Level;
  rosInitialized : bool
}.

(** *** A state monad with [exit] *)

Definition M (A : Type) : Type := Process -> Outcome A * Process.

Definition ret {A : Type} (a : A) : M A := fun st => (Returned a, st).

Definition bind {A B : Type} (m : M A) (k : A -> M B) : M B :=
  fun st =>
    match m st with
    | (Returned a, st') => k a st'
    | (Exited status, st') => (Exited status, st')
    end.

Definition exit {A : Type} (status : Z) : M A := fun st => (Exited status, st).

Definition get_this : M GripperPlugin := fun st => (Returned (this st), st).

Definition assign {T : Type} (set : T -> GripperPlugin -> GripperPlugin)
    (v : T) : M unit :=
  fun st => (Returned tt,
             mkProcess (set v (this st)) (rosout st) (loggerLevel st)
                       (rosInitialized st)).

Definition log (lvl : Level) (items : list StreamItem) : M unit :=
  fun st => (Returned tt,
             mkProcess (this st) (rosout st ++ [mkLogLine lvl items])
                       (loggerLevel st) (rosInitialized st)).

Definition ROS_ERROR_STREAM (items : list StreamItem) : M unit := log LError items.
Definition ROS_INFO_STREAM (items : list StreamItem) : M unit := log LInfo items.

Definition ROS_DEBUG_STREAM_COND (cond : bool) (items : list StreamItem) : M unit :=
  if cond then log LDebug items else ret tt.

(** [ros::console::set_logger_level] followed by
    [notifyLoggerLevelsChanged]. *)
Definition set_logger_level (lvl : Level) : M unit :=
  fun st => (Returned tt,
             mkProcess (this st) (rosout st) lvl (rosInitialized st)).

Definition isInitialized : M bool := fun st => (Returned (rosInitialized st), st).

(** [GripperManager(jointNames, wristPID, fingerPID)]: the constructor
    may end the process; it changes nothing else. *)
Definition GripperManager_ctor (names : GripperJointNames)
    (wristPID fingerPID : PIDSettings) : M Manager :=
  fun st => (construct names wristPID fingerPID, st).

(** [gripperManager.getForces(desired, current)]: the manager member is
    updated in place and the forces are returned. *)
Definition GripperManager_getForces (desired current : GripperState)
    : M GripperForces :=
  fun st =>
    let (forces, manager') := getForces (gripperManager (this st)) desired current in
    (Returned forces,
     mkProcess (set_gripperManager manager' (this st)) (rosout st)
               (loggerLevel st) (rosInitialized st)).

(** [joint->SetForce(0, f)] for the joint member [joint] of the plugin. *)
Definition JointSetForce (joint : GripperPlugin -> JointPtr) (f : Q) : M unit :=
  fun st =>
    (Returned tt,
     mkProcess (set_model (SetForce (joint (this st)) f (model (this st))) (this st))
               (rosout st) (loggerLevel st) (rosInitialized st)).

Notation "x <- m ;; k" := (bind m (fun x => k))
  (at level 61, m at next level, right associativity).
Notation "m ;; k" := (bind m (fun _ => k))
  (at level 61, right associativity).

(** The double quote of the one literal that contains it. *)
Definition dquote : string := String (ascii_of_nat 34) EmptyString.

(** *** loadDebugMode (lines 260-314)

    Each [HasElement]/[GetElement] pair of the source is one [match]. *)
Definition loadDebugMode : M unit :=
  assign set_isDebuggingModeActive false ;;
  p <- get_this ;;
  match GetElement (sdf p) "debug" with
  | Some debug =>
    match GetElement debug "printToConsole" with
    | Some e =>
      let debugString : string := get e in
      if String.eqb debugString "true" then
        assign set_isDebuggingModeActive true ;;
        match GetElement debug "printDelayInSeconds" with
        | Some d =>
          assign set_debugUpdatePeriod (get d) ;;
          p <- get_this ;;
          (* fatal error: the debugUpdatePeriod cannot be <= 0 *)
          if Qle_bool (debugUpdatePeriod p) 0.0 then
            ROS_ERROR_STREAM
              [Str "[Gripper Plugin : "; Str (GetName (model p));
               Str "]: In GripperPlugin.cpp: loadDebugMode(): ";
               Str "printDelayInSeconds = "; Num (debugUpdatePeriod p);
               Str ", printDelayInSeconds cannot be <= 0.0"] ;;
            exit 1
          else ret tt
        | None =>
          ROS_INFO_STREAM
            [Str "[Gripper Plugin : "; Str (GetName (model p));
             Str "]: In GripperPlugin.cpp: loadDebugMode(): ";
             Str "missing nested <printDelayInSeconds> tag in <debug> tag, ";
             Str "defaulting to 3.0 seconds"] ;;
          assign set_debugUpdatePeriod 3.0
        end ;;
        set_logger_level LDebug
      else if negb (String.eqb debugString "false") then
        ROS_INFO_STREAM
          [Str "[Gripper Plugin : "; Str (GetName (model p));
           Str "]: In GripperPlugin.cpp: loadDebugMode(): ";
           Str "invalid value in <printToConsole> tag in <debug> tag, ";
           Str "printToConsole = "; Str debugString;
           Str ", defaulting to false"]
      else ret tt
    | None =>
      ROS_INFO_STREAM
        [Str "[Gripper Plugin : "; Str (GetName (model p));
         Str "]: In GripperPlugin.cpp: loadDebugMode(): ";
         Str "missing nested <printToConsole> tag in <debug> tag, ";
         Str "defaulting to false"]
    end
  | None =>
    ROS_INFO_STREAM
      [Str "[Gripper Plugin : "; Str (GetName (model p));
       Str "]: In GripperPlugin.cpp: loadDebugMode(): ";
       Str "missing <debug> tag, defaulting to false"]
  end.

(** *** loadUpdatePeriod (lines 323-346) *)
Definition loadUpdatePeriod : M unit :=
  p <- get_this ;;
  updateRate <-
    match GetElement (sdf p) "updateRate" with
    | None =>
      ROS_INFO_STREAM
        [Str "[Gripper Plugin : "; Str (GetName (model p));
         Str "]: In GripperPlugin.cpp: loadUpdatePeriod(): ";
         Str "missing <updateRate> tag, defaulting to 1000.0"] ;;
      ret 1000.0
    | Some e =>
      let updateRate : Q := get e in
      (* fatal error: the update cannot be <= 0 and especially cannot = 0 *)
      if Qle_bool updateRate 0 then
        ROS_ERROR_STREAM
          [Str "[Gripper Plugin : "; Str (GetName (model p));
           Str "]: In GripperPlugin.cpp: loadUpdatePeriod(): ";
           Str "updateRate = "; Num updateRate;
           Str ", updateRate cannot be <= 0.0"] ;;
        exit 1
      else ret updateRate
    end ;;
  assign set_updatePeriod (1.0 / updateRate).

(** *** loadSubscriptionTopic (lines 357-370) *)
Definition loadSubscriptionTopic (topicTag : string) : M string :=
  p <- get_this ;;
  match GetElement (sdf p) topicTag with
  | Some e => ret (get e)
  | None =>
    ROS_ERROR_STREAM
      [Str "[Gripper Plugin : "; Str (GetName (model p));
       Str "]: In GripperPlugin.cpp: loadSubscriptionTopic(): No <";
       Str topicTag; Str "> tag is defined in the model SDF file"] ;;
    exit 1
  end.

(** *** loadJoint (lines 383-405) *)
Definition loadJoint (jointTag : string) : M JointPtr :=
  p <- get_this ;;
  match GetElement (sdf p) jointTag with
  | Some e =>
    let jointName : string := get e in
    let joint := GetJoint (model p) jointName in
    match joint with
    | None =>
      ROS_ERROR_STREAM
        [Str "[Gripper Plugin : "; Str (GetName (model p));
         Str "]: In GripperPlugin.cpp: loadJoint(): No "; Str jointName;
         Str " joint is defined in the model SDF file"] ;;
      exit 1
    | Some _ => ret joint
    end
  | None =>
    ROS_ERROR_STREAM
      [Str "[Gripper Plugin : "; Str (GetName (model p));
       Str "]: In GripperPlugin.cpp: loadJoint(): No <"; Str jointTag;
       Str "> tag is defined in the model SDF file"] ;;
    exit 1
  end.

(** *** loadPIDSettings (lines 417-456) *)
Definition loadPIDSettings (PIDTag : string) : M PIDSettings :=
  p <- get_this ;;
  (if negb (String.eqb PIDTag "wrist") && negb (String.eqb PIDTag "finger") then
     ROS_ERROR_STREAM
       [Str "[Gripper Plugin : "; Str (GetName (model p));
        Str "]: In GripperPlugin.cpp: loadPIDSettings(): PIDTag ";
        Str PIDTag;
        Str (" is invalid: use either " ++ dquote ++ "wrist" ++ dquote
             ++ " or " ++ dquote ++ "finger" ++ dquote)] ;;
     exit 1
   else ret tt) ;;
  pid <-
    match GetElement (sdf p) (PIDTag ++ "PID") with
    | None =>
      ROS_INFO_STREAM
        [Str "[Gripper Plugin : "; Str (GetName (model p));
         Str "]: In GripperPlugin.cpp: loadPIDSettings(): missing <";
         Str PIDTag; Str "PID> tag, defaulting to P=2.5, I=0.0, D=0.0"] ;;
      ret (mkVector3 2.5 0.0 0.0)
    | Some e => ret (get e)
    end ;;
  forceLimits <-
    match GetElement (sdf p) (PIDTag ++ "ForceLimits") with
    | None =>
      ROS_INFO_STREAM
        [Str "[Gripper Plugin : "; Str (GetName (model p));
         Str "]: In GripperPlugin.cpp: loadPIDSettings(): missing <";
         Str PIDTag;
         Str "ForceLimits> tag, defaulting to MIN = -10.0 N, MAX = 10.0 N"] ;;
      ret (mkVector2d (-10.0) 10.0)
    | Some e => ret (get e)
    end ;;
  p <- get_this ;;
  ret {| Kp := x pid;
         Ki := y pid;
         Kd := z pid;
         dt := updatePeriod p;
         min := x2 forceLimits;
         max := y2 forceLimits |}.

(** *** Load (lines 19-126) *)
Definition Load (_model : Model) (_sdf : Element) : M unit :=
  assign set_model _model ;;
  assign set_sdf _sdf ;;
  assign set_previousUpdateTime (GetSimTime (GetWorld _model)) ;;
  assign set_previousDebugUpdateTime (GetSimTime (GetWorld _model)) ;;
  (* print debug statements if toggled to "true" in the model SDF file *)
  loadDebugMode ;;
  p <- get_this ;;
  ROS_DEBUG_STREAM_COND (isDebuggingModeActive p)
    [Str "[Gripper Plugin : "; Str (GetName (model p));
     Str "]\n    ===== BEGIN LOADING ====="] ;;
  (* set the update period for this plugin *)
  loadUpdatePeriod ;;
  p <- get_this ;;
  ROS_DEBUG_STREAM_COND (isDebuggingModeActive p)
    [Str "[Gripper Plugin : "; Str (GetName (model p));
     Str "]\n    set the plugin update period:\n"; Str "        ";
     Num (updatePeriod p); Str " Hz or "; Num (1.0 / updatePeriod p);
     Str " updates per second"] ;;
  (* LOAD GRIPPER JOINTS *)
  j <- loadJoint "wristJoint" ;; assign set_wristJoint j ;;
  j <- loadJoint "leftFingerJoint" ;; assign set_leftFingerJoint j ;;
  j <- loadJoint "rightFingerJoint" ;; assign set_rightFingerJoint j ;;
  p <- get_this ;;
  ROS_DEBUG_STREAM_COND (isDebuggingModeActive p)
    [Str "[Gripper Plugin : "; Str (GetName (model p));
     Str "]\n    loaded the gripper's joints:\n"; Str "        ";
     Str (JointGetName (model p) (wristJoint p)); Endl; Str "        ";
     Str (JointGetName (model p) (leftFingerJoint p)); Endl; Str "        ";
     Str (JointGetName (model p) (rightFingerJoint p))] ;;
  (* INITIALIZE GRIPPER MANAGER *)
  let jointNames :=
    {| wristJointName :=
         GetName (model p) ++ "_" ++ JointGetName (model p) (wristJoint p);
       leftFingerJointName :=
         GetName (model p) ++ "_" ++ JointGetName (model p) (leftFingerJoint p);
       rightFingerJointName :=
         GetName (model p) ++ "_" ++ JointGetName (model p) (rightFingerJoint p)
    |} in
  wristPID <- loadPIDSettings "wrist" ;;
  fingerPID <- loadPIDSettings "finger" ;;
  m <- GripperManager_ctor jointNames wristPID fingerPID ;;
  assign set_gripperManager m ;;
  p <- get_this ;;
  ROS_DEBUG_STREAM_COND (isDebuggingModeActive p)
    [Str "[Gripper Plugin : "; Str (GetName (model p));
     Str "]\n    initialized the GripperManager:\n";
     Str "        wristPID:  Kp="; Num (Kp wristPID);
     Str ", Ki="; Num (Ki wristPID); Str ", Kd="; Num (Kd wristPID);
     Str ", force min="; Num (min wristPID);
     Str ", force max="; Num (max wristPID);
     Str ", dt="; Num (dt wristPID); Endl;
     Str "        fingerPID: Kp="; Num (Kp fingerPID);
     Str ", Ki="; Num (Ki fingerPID); Str ", Kd="; Num (Kd fingerPID);
     Str ", force min="; Num (min fingerPID);
     Str ", force max="; Num (max fingerPID);
     Str ", dt="; Num (dt fingerPID)] ;;
  (* connect the updateWorldEventHandler function to Gazebo *)
  assign set_updateConnection true ;;
  ROS_DEBUG_STREAM_COND (isDebuggingModeActive p)
    [Str "[Gripper Plugin : "; Str (GetName (model p));
     Str "]\n    bind world update function to gazebo:\n";
     Str "        void GripperPlugin::updateWorldEventHandler()"] ;;
  (* ROS must be initialized in order to set up this plugin's subscribers *)
  initialized <- isInitialized ;;
  (if negb initialized then
     ROS_ERROR_STREAM
       [Str "[Gripper Plugin : "; Str (GetName (model p));
        Str "] In GripperPlugin.cpp: Load(): ROS must be initialized before ";
        Str "this plugin can be used!"] ;;
     exit 1
   else ret tt) ;;
  assign set_rosNode (Some (GetName (model p) ++ "_gripper")) ;;
  ROS_DEBUG_STREAM_COND (isDebuggingModeActive p)
    [Str "[Gripper Plugin : "; Str (GetName (model p));
     Str "]\n    initialize a NodeHandle for this plugin:\n";
     Str "        "; Str (GetName (model p) ++ "_gripper")] ;;
  (* SUBSCRIBE TO ROS TOPICS *)
  wristTopic <- loadSubscriptionTopic "wristTopic" ;;
  let wristSubscriptionOptions :=
    mkSubscribeOptions wristTopic 1 setWristAngleHandler_cb in
  fingerTopic <- loadSubscriptionTopic "fingerTopic" ;;
  let fingerSubscriptionOptions :=
    mkSubscribeOptions fingerTopic 1 setFingerAngleHandler_cb in
  assign set_wristAngleSubscriber (Some wristSubscriptionOptions) ;;
  assign set_fingerAngleSubscriber (Some fingerSubscriptionOptions) ;;
  ROS_DEBUG_STREAM_COND (isDebuggingModeActive p)
    [Str "[Gripper Plugin : "; Str (GetName (model p));
     Str "]\n    subscribe to all gripper topics:\n"; Str "        ";
     Str wristTopic; Endl; Str "        "; Str fingerTopic] ;;
  (* spin up the queue helper thread *)
  assign set_rosQueueThread true ;;
  ROS_DEBUG_STREAM_COND (isDebuggingModeActive p)
    [Str "[Gripper Plugin : "; Str (GetName (model p));
     Str "]\n    bind queue helper function to private ";
     Str "thread:\n        void GripperPlugin::processRosQueue()"] ;;
  ROS_DEBUG_STREAM_COND (isDebuggingModeActive p)
    [Str "[Gripper Plugin : "; Str (GetName (model p));
     Str "]\n    ===== FINISHED LOADING ====="].

(** *** The subscriber callbacks (lines 213-229) *)
Definition setWristAngleHandler (msg : Q) : M unit :=
  let wristAngle := msg in
  assign set_desiredWristAngle wristAngle.

Definition setFingerAngleHandler (msg : Q) : M unit :=
  let fingerAngle := msg in
  assign set_desiredFingerAngle fingerAngle.

(** *** updateWorldEventHandler (lines 136-203) *)
Definition updateWorldEventHandler : M unit :=
  p <- get_this ;;
  let currentTime := GetSimTime (GetWorld (model p)) in
  (* only update the gripper plugin once every updatePeriod *)
  if Qlt_le_dec (currentTime - previousUpdateTime p) (updatePeriod p) then
    ret tt
  else
    assign set_previousUpdateTime currentTime ;;
    (* get the current gripper state *)
    let currentState :=
      {| wristAngle := GetAngle (model p) (wristJoint p);
         leftFingerAngle := GetAngle (model p) (leftFingerJoint p);
         rightFingerAngle := GetAngle (model p) (rightFingerJoint p) |} in
    (* the two locals of lines 159-160 are read and never used *)
    (* set the desired gripper state *)
    let desiredState :=
      {| leftFingerAngle := desiredFingerAngle p / 2.0;
         rightFingerAngle := (- desiredFingerAngle p) / 2.0;
         wristAngle := desiredWristAngle p |} in
    (* get the forces to apply to the joints from the PID controllers *)
    commandForces <- GripperManager_getForces desiredState currentState ;;
    (* apply the command forces to the joints *)
    JointSetForce wristJoint (wristForce commandForces) ;;
    JointSetForce leftFingerJoint (leftFingerForce commandForces) ;;
    JointSetForce rightFingerJoint (rightFingerForce commandForces) ;;
    (* if debugging mode is active, print debugging statements *)
    if Qle_bool (debugUpdatePeriod p) (currentTime - previousDebugUpdateTime p) then
      assign set_previousDebugUpdateTime currentTime ;;
      ROS_DEBUG_STREAM_COND (isDebuggingModeActive p)
        [Str "[Gripper Plugin : "; Str (GetName (model p)); Str "]\n";
         Str "           Wrist Angle: Current Angle: "; Setw 12;
         Num (wristAngle currentState); Str " rad\n";
         Str "                        Desired Angle: "; Setw 12;
         Num (wristAngle desiredState); Str " rad\n";
         Str "                        Applied Force: "; Setw 12;
         Num (wristForce commandForces); Str " N\n";
         Str "     Left Finger Angle: Current Angle: "; Setw 12;
         Num (leftFingerAngle currentState); Str " rad\n";
         Str "                        Desired Angle: "; Setw 12;
         Num (leftFingerAngle desiredState); Str " rad\n";
         Str "                        Applied Force: "; Setw 12;
         Num (leftFingerForce commandForces); Str " N\n";
         Str "    Right Finger Angle: Current Angle: "; Setw 12;
         Num (rightFingerAngle currentState); Str " rad\n";
         Str "                        Desired Angle: "; Setw 12;
         Num (rightFingerAngle desiredState); Str " rad\n";
         Str "                        Applied Force: "; Setw 12;
         Num (rightFingerForce commandForces); Str " N\n"]
    else ret tt.

End Plugin.

Arguments GripperPlugin Manager : clear implicits.
Arguments Process Manager : clear implicits.
Arguments M Manager A : clear implicits.

End GripperPlugin.

(** * Rates that are not finite

    A C++ [float] is a finite number, an infinity or NaN, and the
    comparison of line 335 and the division of line 345 are defined on all
    of them.  The plugin above reads finite numbers.  This module follows
    loadUpdatePeriod on every value that the updateRate tag can have.
    Finite values are exact rationals here too, and zero has no sign. *)

Module Ieee.

Inductive float : Type :=
| Finite (q : Q)
| PlusInfinity
| MinusInfinity
| NaN.

(** [a <= b] and [a < b]: false as soon as one operand is NaN. *)
Definition le (a b : float) : bool :=
  match a, b with
  | NaN, _ | _, NaN => false
  | MinusInfinity, _ => true
  | _, PlusInfinity => true
  | Finite x, Finite y => Qle_bool x y
  | _, _ => false
  end.

Definition lt (a b : float) : bool :=
  match a, b with
  | NaN, _ | _, NaN => false
  | Finite x, Finite y => negb (Qle_bool y x)
  | MinusInfinity, MinusInfinity => false
  | MinusInfinity, _ => true
  | PlusInfinity, _ => false
  | Finite _, PlusInfinity => true
  | Finite _, MinusInfinity => false
  end.

Definition opposite (a : float) : float :=
  match a with
  | Finite x => Finite (- x)
  | PlusInfinity => MinusInfinity
  | MinusInfinity => PlusInfinity
  | NaN => NaN
  end.

(** [a / b]: a finite number over an infinity is zero, a number other than
    zero over zero is an infinity, 0/0 and infinity over infinity are NaN. *)
Definition div (a b : float) : float :=
  match a, b with
  | NaN, _ | _, NaN => NaN
  | Finite x, Finite y =>
    if Qeq_bool y 0 then
      if Qeq_bool x 0 then NaN
      else if Qle_bool x 0 then MinusInfinity else PlusInfinity
    else Finite (x / y)
  | Finite _, _ => Finite 0
  | _, Finite y => if Qle_bool 0 y then a else opposite a
  | _, _ => NaN
  end.

(** loadUpdatePeriod (lines 323-346) as a function of the value of the
    updateRate tag, [None] when the configuration has no such tag: the
    status of exit(1), or the value assigned to updatePeriod. *)
Definition loadUpdatePeriod (updateRateTag : option float) : Outcome float :=
  match
    match updateRateTag with
    | None => Returned (Finite 1000.0)
    | Some updateRate =>
      (* fatal error: the update cannot be <= 0 and especially cannot = 0 *)
      if le updateRate (Finite 0) then Exited 1 else Returned updateRate
    end
  with
  | Returned updateRate => Returned (div (Finite 1.0) updateRate)
  | Exited status => Exited status
  end.

End Ieee.

(** * Concrete configurations

    A small conversion from text to numbers and vectors, a model with three
    joints and a few configuration documents, for the examples at the end. *)

Module Examples.

Import Ros Sdf Math Physics PIDController GripperManager GripperPlugin.

Fixpoint digits (s : string) (acc : Z) : Z :=
  match s with
  | EmptyString => acc
  | String c s' => digits s' (10 * acc + (Z.of_nat (nat_of_ascii c) - 48))
  end.

(** Signed decimal integers are enough here. *)
Definition number (s : string) : Q :=
  match s with
  | String "-"%char s' => inject_Z (- digits s' 0)
  | _ => inject_Z (digits s 0)
  end.

Fixpoint words (s : string) (current : string) : list string :=
  match s with
  | EmptyString => [current]
  | String " "%char s' => current :: words s' EmptyString
  | String c s' => words s' (current ++ String c EmptyString)
  end.

Definition Get_float : Get Q := fun e => number (text e).

Definition Get_Vector3 : Get Vector3 :=
  fun e =>
    match map number (words (text e) EmptyString) with
    | [a; b; c] => mkVector3 a b c
    | _ => mkVector3 0 0 0
    end.

Definition Get_Vector2d : Get Vector2d :=
  fun e =>
    match map number (words (text e) EmptyString) with
    | [a; b] => mkVector2d a b
    | _ => mkVector2d 0 0
    end.

Definition leaf (s : string) : Element := MkElement s [].

Definition node (l : list (string * Element)) : Element := MkElement EmptyString l.

(** A rover whose gripper has the three joints, at simulated time [t]. *)
Definition rover (t : Time) : Model :=
  mkModel "swarmie"
          [mkJoint "wrist" 0 0; mkJoint "left_finger" (1 # 4) 0;
           mkJoint "right_finger" (- (1 # 4)) 0]
          (mkWorld t).

Definition joints_and_topics : list (string * Element) :=
  [("wristJoint", leaf "wrist");
   ("leftFingerJoint", leaf "left_finger");
   ("rightFingerJoint", leaf "right_finger");
   ("wristTopic", leaf "/gripper/wrist");
   ("fingerTopic", leaf "/gripper/fingers")].

Definition default_settings : PIDSettings :=
  mkPIDSettings 2.5 0.0 0.0 (1 # 10) (-10.0) 10.0.

Definition names : GripperJointNames :=
  mkGripperJointNames "swarmie_wrist" "swarmie_left_finger" "swarmie_right_finger".

Definition manager : GripperManager :=
  mkGripperManager names (init default_settings) (init default_settings)
                   (init default_settings).

(** A plugin object before [Load], with the configuration [config]. *)
Definition fresh (config : Element) : Process GripperManager :=
  mkProcess
    (mkGripperPlugin (rover 0) config false None None None false false 0 0 0 0
                     None None None manager 0 0)
    [] LInfo true.

(** A loaded plugin polled at time [t]: period 1/10 s, debug period 3 s,
    last control update at [lastControl], last debug print at [lastDebug]. *)
Definition polled (t lastControl lastDebug : Time) (debugging : bool)
  : Process GripperManager :=
  mkProcess
    (mkGripperPlugin (rover t) (node joints_and_topics) true
                     (Some "swarmie_gripper") None None true debugging 3 (1 # 10)
                     lastControl lastDebug (Some 0%nat) (Some 1%nat)
                     (Some 2%nat) manager (1 # 2) 1)
    [] LInfo true.

(** Configuration documents. *)
Definition config_plain : Element := node joints_and_topics.

Definition config_rate (rate : string) : Element :=
  node (("updateRate", leaf rate) :: joints_and_topics).

Definition config_debug (printToConsole : string) (delay : list (string * Element))
  : Element :=
  node (("debug", node (("printToConsole", leaf printToConsole) :: delay))
          :: joints_and_topics).

Definition config_no_wristJoint : Element := node (tl joints_and_topics).

Definition config_no_fingerTopic : Element :=
  node (removelast joints_and_topics).



Definition config_limits (limits : string) : Element :=
  node (("wristForceLimits", leaf limits) :: joints_and_topics).

(** Polls: the control gate closed while the debug period has passed; both
    gates due with debugging on; both due with debugging off; the control
    gate due before the debug period has passed. *)
Definition poll_closed : Process GripperManager := polled 5 (99 # 20) 1 true.
Definition poll_due : Process GripperManager := polled 5 1 1 true.
Definition poll_due_quiet : Process GripperManager := polled 5 1 1 false.
Definition poll_early_debug : Process GripperManager := polled 5 1 4 true.

(** The same process where [ros::isInitialized()] answers false. *)
Definition without_ros (st : Process GripperManager) : Process GripperManager :=
  mkProcess (this st) (rosout st) (loggerLevel st) false.

End Examples.

(** * Vocabulary of the statements *)

Import Ros Sdf Math Physics PIDController GripperManager GripperPlugin.

Section Vocabulary.

Context {Manager : Type} {API : Api Manager}.
Context {Get_float : Get Q} {Get_Vector3 : Get Vector3} {Get_Vector2d : Get Vector2d}.

Implicit Types (st : Process Manager) (p : GripperPlugin Manager).

(** [wp m st R X]: run from [st], the computation [m] returns a value and
    a state in [R], or exits in a state in [X]. *)
Definition wp {A : Type} (m : M Manager A) st
    (R : A -> Process Manager -> Prop) (X : Process Manager -> Prop) : Prop :=
  match m st with
  | (Returned a, st') => R a st'
  | (Exited _, st') => X st'
  end.

(** The gains and the force limits of [s] are those of the element, or the
    defaults when there is none. *)
Definition gains_from (s : PIDSettings) (o : option Element) : Prop :=
  match o with
  | Some e => Kp s = x (get e) /\ Ki s = y (get e) /\ Kd s = z (get e)
  | None => Kp s = 2.5 /\ Ki s = 0.0 /\ Kd s = 0.0
  end.

Definition limits_from (s : PIDSettings) (o : option Element) : Prop :=
  match o with
  | Some e => min s = x2 (get e) /\ max s = y2 (get e)
  | None => min s = -10.0 /\ max s = 10.0
  end.

Definition mandatory_tags : list string :=
  ["wristJoint"; "leftFingerJoint"; "rightFingerJoint"; "wristTopic"; "fingerTopic"].

Definition joint_tags : list string :=
  ["wristJoint"; "leftFingerJoint"; "rightFingerJoint"].

(** The configuration lacks a mandatory tag, or a joint tag names a joint
    that the model does not have. *)
Definition misconfigured (_model : Model) (_sdf : Element) : Prop :=
  (exists tag, In tag mandatory_tags /\ GetElement _sdf tag = None) \/
  (exists tag e, In tag joint_tags /\ GetElement _sdf tag = Some e /\
                 GetJoint _model (get e) = None).

(** What a run of [Load] that returned has established in [st']. *)
Definition loaded (_model : Model) (_sdf : Element) st' : Prop :=
  exists ew iw el il er ir wristPID fingerPID m ewt eft,
    GetElement _sdf "wristJoint" = Some ew /\
    GetJoint _model (get ew) = Some iw /\
    GetElement _sdf "leftFingerJoint" = Some el /\
    GetJoint _model (get el) = Some il /\
    GetElement _sdf "rightFingerJoint" = Some er /\
    GetJoint _model (get er) = Some ir /\
    GetElement _sdf "wristTopic" = Some ewt /\
    GetElement _sdf "fingerTopic" = Some eft /\
    0 < dt wristPID /\ dt fingerPID = dt wristPID /\
    limits_from wristPID (GetElement _sdf "wristForceLimits") /\
    limits_from fingerPID (GetElement _sdf "fingerForceLimits") /\
    construct
      {| wristJointName :=
           GetName _model ++ "_" ++ JointGetName _model (Some iw);
         leftFingerJointName :=
           GetName _model ++ "_" ++ JointGetName _model (Some il);
         rightFingerJointName :=
           GetName _model ++ "_" ++ JointGetName _model (Some ir) |}
      wristPID fingerPID = Returned m /\
    gripperManager (this st') = m /\
    updatePeriod (this st') = dt wristPID /\
    updateConnection (this st') = true.

(** Debug printing is requested: the text of debug/printToConsole is "true". *)
Definition printToConsole_true (_sdf : Element) : bool :=
  match GetElement _sdf "debug" with
  | Some debug =>
    match GetElement debug "printToConsole" with
    | Some e => String.eqb (text e) "true"
    | None => false
    end
  | None => false
  end.

Definition printDelayInSeconds (_sdf : Element) : option Element :=
  match GetElement _sdf "debug" with
  | Some debug => GetElement debug "printDelayInSeconds"
  | None => None
  end.

(** The simulated time seen by a poll, and the time since the last control
    update and since the last debug print. *)
Definition now p : Time := GetSimTime (GetWorld (model p)).
Definition sinceControl p : Q := now p - previousUpdateTime p.
Definition sinceDebug p : Q := now p - previousDebugUpdateTime p.

(** The joint angles read by a poll. *)
Definition measured p : GripperState :=
  {| wristAngle := GetAngle (model p) (wristJoint p);
     leftFingerAngle := GetAngle (model p) (leftFingerJoint p);
     rightFingerAngle := GetAngle (model p) (rightFingerJoint p) |}.

(** The model once the three forces are applied to the joints, in the
    order wrist, left finger, right finger. *)
Definition applied p (f : GripperForces) : Model :=
  SetForce (rightFingerJoint p) (rightFingerForce f)
    (SetForce (leftFingerJoint p) (leftFingerForce f)
       (SetForce (wristJoint p) (wristForce f) (model p))).

(** The plugin object after a control-gate fire that passed [desired] to
    the manager; only the time of the last debug print is left open. *)
Definition controlled p (desired : GripperState) : GripperPlugin Manager :=
  let (forces, manager') := getForces (gripperManager p) desired (measured p) in
  set_model (applied p forces)
    (set_gripperManager manager' (set_previousUpdateTime (now p) p)).

(** The statement [l] is a debug-level snapshot of the measured angles,
    the desired angles and the forces computed from them. *)
Definition snapshot p (desired : GripperState) (l : LogLine) : Prop :=
  let forces := fst (getForces (gripperManager p) desired (measured p)) in
  level l = LDebug /\
  cites (wristAngle (measured p)) l /\
  cites (wristAngle desired) l /\
  cites (wristForce forces) l /\
  cites (leftFingerAngle (measured p)) l /\
  cites (leftFingerAngle desired) l /\
  cites (leftFingerForce forces) l /\
  cites (rightFingerAngle (measured p)) l /\
  cites (rightFingerAngle desired) l /\
  cites (rightFingerForce forces) l.

End Vocabulary.

Arguments wp : simpl never.

(** ** Vocabulary for whole runs of [Load] and sequences of events *)

Section Runs.

Context {Manager : Type} {API : Api Manager}.
Context {Get_float : Get Q} {Get_Vector3 : Get Vector3} {Get_Vector2d : Get Vector2d}.

Implicit Types (st : Process Manager) (p : GripperPlugin Manager).

(** [wpx] is [wp] with the exit status visible to the exit condition. *)
Definition wpx {A : Type} (m : M Manager A) st
    (R : A -> Process Manager -> Prop) (X : Z -> Process Manager -> Prop) : Prop :=
  match m st with
  | (Returned a, st') => R a st'
  | (Exited status, st') => X status st'
  end.

(** The last statement handed to rosconsole is an error. *)
Definition ends_with_error st : Prop :=
  exists earlier l, rosout st = (earlier ++ [l])%list /\ is_error l = true.

(** The last statement handed to rosconsole is an error that streams the
    string [name]. *)
Definition ends_naming (name : string) st : Prop :=
  exists earlier l,
    rosout st = (earlier ++ [l])%list /\ is_error l = true /\ names name l.






(** The two fatal values of a configuration: a debug delay <= 0 while
    printing is requested, and an update rate <= 0. *)
Definition fatal_debug (_sdf : Element) : Prop :=
  printToConsole_true _sdf = true /\
  exists d, printDelayInSeconds _sdf = Some d /\ get d <= 0.

Definition fatal_rate (_sdf : Element) : Prop :=
  exists e, GetElement _sdf "updateRate" = Some e /\ get e <= 0.

(** What the configuration says: the update rate, the joint and the topic
    of a tag, the settings of a joint group and the names given to the
    manager. *)
Definition configured_rate (_sdf : Element) : Q :=
  match GetElement _sdf "updateRate" with
  | Some e => get e
  | None => 1000.0
  end.

(** The debug period that the configuration asks for when printing is
    requested: the value of debug/printDelayInSeconds, or 3.0 (lines
    274-291). *)
Definition configured_delay (_sdf : Element) : Q :=
  match printDelayInSeconds _sdf with
  | Some d => get d
  | None => 3.0
  end.

Definition configured_joint (_model : Model) (_sdf : Element) (jointTag : string)
  : JointPtr :=
  match GetElement _sdf jointTag with
  | Some e => GetJoint _model (get e)
  | None => None
  end.

Definition configured_text (_sdf : Element) (tag : string) : string :=
  match GetElement _sdf tag with
  | Some e => get e
  | None => EmptyString
  end.

Definition configured_gains (_sdf : Element) (PIDTag : string) : Vector3 :=
  match GetElement _sdf (PIDTag ++ "PID") with
  | Some e => get e
  | None => mkVector3 2.5 0.0 0.0
  end.

Definition configured_limits (_sdf : Element) (PIDTag : string) : Vector2d :=
  match GetElement _sdf (PIDTag ++ "ForceLimits") with
  | Some e => get e
  | None => mkVector2d (-10.0) 10.0
  end.

Definition configured_settings (_sdf : Element) (PIDTag : string) (period : Q)
  : PIDSettings :=
  {| Kp := x (configured_gains _sdf PIDTag);
     Ki := y (configured_gains _sdf PIDTag);
     Kd := z (configured_gains _sdf PIDTag);
     dt := period;
     min := x2 (configured_limits _sdf PIDTag);
     max := y2 (configured_limits _sdf PIDTag) |}.

Definition configured_names (_model : Model) (_sdf : Element) : GripperJointNames :=
  {| wristJointName :=
       GetName _model ++ "_"
       ++ JointGetName _model (configured_joint _model _sdf "wristJoint");
     leftFingerJointName :=
       GetName _model ++ "_"
       ++ JointGetName _model (configured_joint _model _sdf "leftFingerJoint");
     rightFingerJointName :=
       GetName _model ++ "_"
       ++ JointGetName _model (configured_joint _model _sdf "rightFingerJoint") |}.

(** The manager that [Load] asks for. *)
Definition configured_manager (_model : Model) (_sdf : Element) : Outcome Manager :=
  construct (configured_names _model _sdf)
            (configured_settings _sdf "wrist" (1.0 / configured_rate _sdf))
            (configured_settings _sdf "finger" (1.0 / configured_rate _sdf)).

(** Nothing in the configuration, the model, ROS or the manager is in the
    way of [Load]. *)
Definition well_configured (_model : Model) (_sdf : Element) (ros : bool) : Prop :=
  ~ fatal_debug _sdf /\
  ~ fatal_rate _sdf /\
  ~ misconfigured _model _sdf /\
  returns (configured_manager _model _sdf) = true /\
  ros = true.

(** The plugin object that a [Load] which returns leaves behind, given the
    debug period [d], the manager [m] and the object [p] it started from. *)
Definition loaded_plugin (_model : Model) (_sdf : Element) (d : Q) (m : Manager) p
  : GripperPlugin Manager :=
  {| model := _model;
     sdf := _sdf;
     updateConnection := true;
     rosNode := Some (GetName _model ++ "_gripper");
     wristAngleSubscriber :=
       Some (mkSubscribeOptions (configured_text _sdf "wristTopic") 1
                                setWristAngleHandler_cb);
     fingerAngleSubscriber :=
       Some (mkSubscribeOptions (configured_text _sdf "fingerTopic") 1
                                setFingerAngleHandler_cb);
     rosQueueThread := true;
     isDebuggingModeActive := printToConsole_true _sdf;
     debugUpdatePeriod := d;
     updatePeriod := 1.0 / configured_rate _sdf;
     previousUpdateTime := GetSimTime (GetWorld _model);
     previousDebugUpdateTime := GetSimTime (GetWorld _model);
     wristJoint := configured_joint _model _sdf "wristJoint";
     leftFingerJoint := configured_joint _model _sdf "leftFingerJoint";
     rightFingerJoint := configured_joint _model _sdf "rightFingerJoint";
     gripperManager := m;
     desiredWristAngle := desiredWristAngle p;
     desiredFingerAngle := desiredFingerAngle p |}.

(** What holds after a [Load] that returned, and after one that exited with
    the status [status]. *)
Definition Load_returned (_model : Model) (_sdf : Element) st st' : Prop :=
  well_configured _model _sdf (rosInitialized st) /\
  rosInitialized st' = rosInitialized st /\
  exists d m,
    this st' = loaded_plugin _model _sdf d m (this st) /\
    configured_manager _model _sdf = Returned m /\
    (printToConsole_true _sdf = true ->
       d = configured_delay _sdf /\ loggerLevel st' = LDebug) /\
    (printToConsole_true _sdf = false ->
       d = debugUpdatePeriod (this st) /\ loggerLevel st' = loggerLevel st).

Definition Load_exited (_model : Model) (_sdf : Element) st (status : Z) st' : Prop :=
  ~ well_configured _model _sdf (rosInitialized st) /\
  (status = 1%Z /\ ends_with_error st' \/
   configured_manager _model _sdf = Exited status) /\
  wristAngleSubscriber (this st') = wristAngleSubscriber (this st) /\
  fingerAngleSubscriber (this st') = fingerAngleSubscriber (this st) /\
  rosQueueThread (this st') = rosQueueThread (this st) /\
  (rosInitialized st = false -> rosNode (this st') = rosNode (this st)) /\
  desiredWristAngle (this st') = desiredWristAngle (this st) /\
  desiredFingerAngle (this st') = desiredFingerAngle (this st).

(** The number of the two tags of a joint group that the configuration
    lacks. *)
Definition missing_tags (_sdf : Element) (PIDTag : string) : nat :=
  (if HasElement _sdf (PIDTag ++ "PID") then 0 else 1)
  + (if HasElement _sdf (PIDTag ++ "ForceLimits") then 0 else 1).

(** The joint [j] with the force [f] written to it. *)
Definition with_force (f : Q) (j : Joint) : Joint := mkJoint (jointName j) (angle j) f.

(** The pointer [ptr] designates a joint of [m] named [name]. *)
Definition designates (m : Model) (ptr : JointPtr) (name : string) : Prop :=
  exists j, deref m ptr = Some j /\ jointName j = name.

(** The callback bound to a subscription (lines 97 and 105), and the
    callbacks of a sequence of messages run one after the other, as the
    queue thread runs them. *)
Definition invoke (cb : Callback) (data : Q) : M Manager unit :=
  match cb with
  | setWristAngleHandler_cb => setWristAngleHandler data
  | setFingerAngleHandler_cb => setFingerAngleHandler data
  end.

Fixpoint deliver (msgs : list (Callback * Q)) : M Manager unit :=
  match msgs with
  | [] => ret tt
  | (cb, data) :: rest => bind (invoke cb data) (fun _ => deliver rest)
  end.

Definition same_callback (a b : Callback) : bool :=
  match a, b with
  | setWristAngleHandler_cb, setWristAngleHandler_cb => true
  | setFingerAngleHandler_cb, setFingerAngleHandler_cb => true
  | _, _ => false
  end.

(** The data of the last message of [msgs] for the callback [cb], or
    [before] when there is none. *)
Fixpoint latest (cb : Callback) (msgs : list (Callback * Q)) (before : Q) : Q :=
  match msgs with
  | [] => before
  | (c, data) :: rest => latest cb rest (if same_callback cb c then data else before)
  end.

(** The physics engine replaces the state of the model between two polls;
    [polls ms st] is the process after one poll on each model of [ms]. *)
Definition physics (m : Model) st : Process Manager :=
  mkProcess (set_model m (this st)) (rosout st) (loggerLevel st) (rosInitialized st).

Fixpoint polls (ms : list Model) st : Process Manager :=
  match ms with
  | [] => st
  | m :: rest => polls rest (snd (updateWorldEventHandler (physics m st)))
  end.

End Runs.

Arguments wpx : simpl never.

(** * Properties *)

Lemma HasElement_GetElement (e : Element) (tag : string) :
  HasElement e tag = true <-> exists c, GetElement e tag = Some c.
Proof.
  unfold HasElement. destruct (GetElement e tag) as [c | ]; split.
  - intros _. exists c. reflexivity.
  - intros _. reflexivity.
  - intros H. discriminate H.
  - intros [c H]. discriminate H.
Qed.

Lemma Qle_bool_false (a b : Q) : Qle_bool a b = false -> b < a.
Proof.
  intros H. apply Qnot_le_lt. intros Hle.
  apply Qle_bool_iff in Hle. congruence.
Qed.

Lemma Qle_bool_decimal_zero (a : Q) : Qle_bool a 0.0 = Qle_bool a 0.
Proof.
  apply eq_true_iff_eq. rewrite !Qle_bool_iff.
  assert (H1 : 0.0 <= 0) by (unfold Qle; simpl; lia).
  assert (H2 : 0 <= 0.0) by (unfold Qle; simpl; lia).
  split; intros H; eapply Qle_trans; eassumption.
Qed.

(** ** The per-joint controller *)

Lemma clamp_within (raw lo hi : Q) :
  lo <= hi -> lo <= clamp raw lo hi /\ clamp raw lo hi <= hi.
Proof.
  intros Hle. unfold clamp.
  destruct (Qlt_le_dec hi raw) as [Hhi | Hhi].
  - split; [exact Hle | apply Qle_refl].
  - destruct (Qlt_le_dec raw lo) as [Hlo | Hlo].
    + split; [apply Qle_refl | exact Hle].
    + split; assumption.
Qed.

(** C5: with dt > 0 and min <= max, the force returned by [compute] lies in
    the closed range from min to max, whatever the setpoint, the measurement
    and the accumulated state of the controller. *)
Theorem compute_output_within_limits (c : PIDController) (setpoint measurement : Q) :
  0 < dt (settings c) ->
  min (settings c) <= max (settings c) ->
  min (settings c) <= fst (compute c setpoint measurement) /\
  fst (compute c setpoint measurement) <= max (settings c).
Proof.
  intros _ Hle. unfold compute. cbn [fst].
  apply clamp_within. exact Hle.
Qed.

Lemma valid_true_iff (s : PIDSettings) :
  valid s = true <-> 0 < dt s /\ min s <= max s.
Proof.
  unfold valid. rewrite andb_true_iff, negb_true_iff, Qle_bool_iff. split.
  - intros [Hdt Hle]. split; [apply Qle_bool_false; exact Hdt | exact Hle].
  - intros [Hdt Hle]. split; [ | exact Hle].
    destruct (Qle_bool (dt s) 0) eqn:E; [ | reflexivity].
    apply Qle_bool_iff in E. exfalso. apply (Qlt_not_le _ _ Hdt E).
Qed.

(** ** Rules for running the monad *)

Section Hoare.

Context {Manager : Type} {API : Api Manager}.

Implicit Types st : Process Manager.

Lemma wp_bind {A B : Type} (m : M Manager A) (k : A -> M Manager B) st R X :
  wp m st (fun a st' => wp (k a) st' R X) X -> wp (bind m k) st R X.
Proof.
  unfold wp, bind. destruct (m st) as [[a | status] st']; auto.
Qed.

Lemma wp_ret {A : Type} (a : A) st R X : R a st -> wp (ret a) st R X.
Proof. auto. Qed.

Lemma wp_exit {A : Type} (status : Z) st (R : A -> Process Manager -> Prop) X :
  X st -> wp (exit status) st R X.
Proof. auto. Qed.

Lemma wp_get_this st R X : R (this st) st -> wp get_this st R X.
Proof. auto. Qed.

Lemma wp_assign {T : Type} (set : T -> GripperPlugin Manager -> GripperPlugin Manager)
    (v : T) st R X :
  (forall st', this st' = set v (this st) -> R tt st') ->
  wp (assign set v) st R X.
Proof. intros H. apply H. reflexivity. Qed.

Lemma wp_log lvl items st R X :
  (forall st', this st' = this st -> R tt st') -> wp (log lvl items) st R X.
Proof. intros H. apply H. reflexivity. Qed.

Lemma wp_debug_cond c items st R X :
  (forall st', this st' = this st -> R tt st') ->
  wp (ROS_DEBUG_STREAM_COND c items) st R X.
Proof. intros H. destruct c; apply H; reflexivity. Qed.

Lemma wp_set_logger_level lvl st R X :
  (forall st', this st' = this st -> R tt st') ->
  wp (set_logger_level lvl) st R X.
Proof. intros H. apply H. reflexivity. Qed.

Lemma wp_isInitialized st R X :
  (forall b, R b st) -> wp isInitialized st R X.
Proof. intros H. apply H. Qed.

Lemma wp_ctor names wristPID fingerPID st R X :
  (forall m, construct names wristPID fingerPID = Returned m -> R m st) ->
  (forall status, construct names wristPID fingerPID = Exited status -> X st) ->
  wp (GripperManager_ctor names wristPID fingerPID) st R X.
Proof.
  intros HR HX. unfold wp, GripperManager_ctor.
  destruct (construct names wristPID fingerPID) eqn:E; eauto.
Qed.

End Hoare.

(** One equation [this st = ...] is kept for the current state; the equation
    of the next state is rewritten with it. *)
Ltac chain H :=
  try match type of H with
      | this _ = ?t =>
        match t with
        | context [this ?s] =>
          match goal with
          | Hold : this s = _ |- _ => rewrite Hold in H; clear Hold; try clear s
          end
        end
      end.

Ltac simpl_this :=
  cbn [this model sdf updateConnection rosNode wristAngleSubscriber
       fingerAngleSubscriber rosQueueThread isDebuggingModeActive
       debugUpdatePeriod updatePeriod previousUpdateTime
       previousDebugUpdateTime wristJoint leftFingerJoint rightFingerJoint
       gripperManager desiredWristAngle desiredFingerAngle
       set_model set_sdf set_updateConnection set_rosNode
       set_wristAngleSubscriber set_fingerAngleSubscriber set_rosQueueThread
       set_isDebuggingModeActive set_debugUpdatePeriod set_updatePeriod
       set_previousUpdateTime set_previousDebugUpdateTime set_wristJoint
       set_leftFingerJoint set_rightFingerJoint set_gripperManager
       set_desiredWristAngle set_desiredFingerAngle] in *.

Ltac use_this H :=
  try match goal with
      | Hcur : this _ = _ |- _ => rewrite Hcur in H
      end;
  simpl_this.

Ltac wp_intro :=
  let s := fresh "st" in
  let H := fresh "Hthis" in
  intros s H; chain H.

Ltac wp_step :=
  lazymatch goal with
  | |- wp (bind _ _) _ _ _ => apply wp_bind
  | |- wp (ret _) _ _ _ => apply wp_ret
  | |- wp (exit _) _ _ _ => apply wp_exit
  | |- wp get_this ?s _ _ =>
    apply wp_get_this;
    try match goal with H : this s = _ |- _ => rewrite H end;
    cbn beta; simpl_this
  | |- wp (assign _ _) _ _ _ => apply wp_assign; wp_intro
  | |- wp (log _ _) _ _ _ => apply wp_log; wp_intro
  | |- wp (ROS_ERROR_STREAM _) _ _ _ => apply wp_log; wp_intro
  | |- wp (ROS_INFO_STREAM _) _ _ _ => apply wp_log; wp_intro
  | |- wp (ROS_DEBUG_STREAM_COND _ _) _ _ _ => apply wp_debug_cond; wp_intro
  | |- wp (set_logger_level _) _ _ _ => apply wp_set_logger_level; wp_intro
  | |- wp (match ?x with _ => _ end) _ _ _ => destruct x eqn:?
  end.

Section LoaderRules.

Context {Manager : Type}.
Context {Get_float : Get Q} {Get_Vector3 : Get Vector3} {Get_Vector2d : Get Vector2d}.

Implicit Types st : Process Manager.

Lemma wp_loadDebugMode st R X :
  (forall b d st',
      this st' = set_isDebuggingModeActive b (set_debugUpdatePeriod d (this st)) ->
      R tt st') ->
  (forall b d st',
      this st' = set_isDebuggingModeActive b (set_debugUpdatePeriod d (this st)) ->
      X st') ->
  wp loadDebugMode st R X.
Proof.
  intros HR HX. unfold loadDebugMode. repeat wp_step.
  all: first [ eapply HR | eapply HX ];
    match goal with H : this _ = _ |- _ => rewrite H end; reflexivity.
Qed.

Lemma wp_loadUpdatePeriod st R X :
  (forall v st', 0 < v -> this st' = set_updatePeriod v (this st) -> R tt st') ->
  (forall st', this st' = this st -> X st') ->
  wp loadUpdatePeriod st R X.
Proof.
  intros HR HX. unfold loadUpdatePeriod. repeat wp_step.
  - apply HX. assumption.
  - eapply HR; [ | eassumption].
    match goal with
    | H : Qle_bool _ _ = false |- _ => apply Qle_bool_false in H
    end.
    apply Qlt_shift_div_l; lra.
  - eapply HR; [ | eassumption]. reflexivity.
Qed.

Lemma wp_loadJoint tag st R X :
  (forall e i st',
      GetElement (sdf (this st)) tag = Some e ->
      GetJoint (model (this st)) (get e) = Some i ->
      this st' = this st -> R (Some i) st') ->
  (forall st', this st' = this st -> X st') ->
  wp (loadJoint tag) st R X.
Proof.
  intros HR HX. unfold loadJoint. repeat wp_step.
  - eapply HR; [reflexivity | eassumption | reflexivity].
  - apply HX. assumption.
  - apply HX. assumption.
Qed.

Lemma wp_loadSubscriptionTopic tag st R X :
  (forall e st',
      GetElement (sdf (this st)) tag = Some e ->
      this st' = this st -> R (get e) st') ->
  (forall st', this st' = this st -> X st') ->
  wp (loadSubscriptionTopic tag) st R X.
Proof.
  intros HR HX. unfold loadSubscriptionTopic. repeat wp_step.
  - eapply HR; reflexivity.
  - apply HX. assumption.
Qed.

Lemma wp_loadPIDSettings tag st R X :
  (forall s st',
      this st' = this st ->
      dt s = updatePeriod (this st) ->
      gains_from s (GetElement (sdf (this st)) (tag ++ "PID")) ->
      limits_from s (GetElement (sdf (this st)) (tag ++ "ForceLimits")) ->
      R s st') ->
  (forall st', this st' = this st -> X st') ->
  wp (loadPIDSettings tag) st R X.
Proof.
  intros HR HX. unfold loadPIDSettings. repeat wp_step.
  all: first [ apply HX; assumption
             | apply HR; first [assumption | reflexivity | idtac] ].
  all: cbn; auto.
Qed.

End LoaderRules.

Ltac load_step :=
  lazymatch goal with
  | |- wp loadDebugMode _ _ _ =>
    apply wp_loadDebugMode; intros ? ?; wp_intro
  | |- wp loadUpdatePeriod _ _ _ =>
    apply wp_loadUpdatePeriod;
    [ let v := fresh "v" in
      let Hv := fresh "Hv" in
      let s := fresh "st" in
      let H := fresh "Hthis" in
      intros v s Hv H; chain H
    | wp_intro ]
  | |- wp (loadJoint _) _ _ _ =>
    apply wp_loadJoint;
    [ let e := fresh "e" in
      let i := fresh "i" in
      let s := fresh "st" in
      let Hg := fresh "Hget" in
      let Hj := fresh "Hjoint" in
      let H := fresh "Hthis" in
      intros e i s Hg Hj H; use_this Hg; use_this Hj; chain H
    | wp_intro ]
  | |- wp (loadSubscriptionTopic _) _ _ _ =>
    apply wp_loadSubscriptionTopic;
    [ let e := fresh "e" in
      let s := fresh "st" in
      let Hg := fresh "Hget" in
      let H := fresh "Hthis" in
      intros e s Hg H; use_this Hg; chain H
    | wp_intro ]
  | |- wp (loadPIDSettings _) _ _ _ =>
    apply wp_loadPIDSettings;
    [ let p := fresh "pid" in
      let s := fresh "st" in
      let H := fresh "Hthis" in
      let Hdt := fresh "Hdt" in
      let Hg := fresh "Hgains" in
      let Hl := fresh "Hlimits" in
      intros p s H Hdt Hg Hl; use_this Hdt; use_this Hg; use_this Hl; chain H
    | wp_intro ]
  | |- wp (GripperManager_ctor _ _ _) _ _ _ =>
    apply wp_ctor; [intros ? ? | intros ? ?]
  | |- wp isInitialized _ _ _ => apply wp_isInitialized; intros ?
  | |- _ => wp_step
  end.

(** ** The loaders *)

Section Loaders.

Context {Manager : Type}.
Context {Get_float : Get Q} {Get_Vector3 : Get Vector3} {Get_Vector2d : Get Vector2d}.

Implicit Types st : Process Manager.

Ltac run_loader :=
  unfold bind, get_this, assign, ROS_ERROR_STREAM, ROS_INFO_STREAM, log,
    set_logger_level, exit, ret;
  cbn [fst snd this rosout].

(** C6: in [loadUpdatePeriod], a missing updateRate tag gives the period
    1/1000; a rate <= 0 ends the process with status 1 after one
    error-level statement that cites the rate, the plugin object being
    left as it was; any other rate gives the period 1/rate.  In the two
    returning cases the update period is the only member that changes. *)
Theorem loadUpdatePeriod_cases st :
  let r := loadUpdatePeriod st in
  (GetElement (sdf (this st)) "updateRate" = None ->
     fst r = Returned tt /\
     this (snd r) = set_updatePeriod (updatePeriod (this (snd r))) (this st) /\
     updatePeriod (this (snd r)) == 1 / 1000) /\
  (forall e, GetElement (sdf (this st)) "updateRate" = Some e ->
     get e <= 0 ->
     fst r = Exited 1 /\
     this (snd r) = this st /\
     exists l, rosout (snd r) = (rosout st ++ [l])%list /\
               is_error l = true /\ cites (get e) l) /\
  (forall e, GetElement (sdf (this st)) "updateRate" = Some e ->
     0 < get e ->
     fst r = Returned tt /\
     this (snd r) = set_updatePeriod (updatePeriod (this (snd r))) (this st) /\
     rosout (snd r) = rosout st /\
     updatePeriod (this (snd r)) == 1 / get e).
Proof.
  intros r. subst r. unfold loadUpdatePeriod. run_loader.
  split; [ | split].
  - intros Hnone. rewrite Hnone. cbn.
    split; [reflexivity | ]. split; reflexivity.
  - intros e Hsome Hle. rewrite Hsome.
    apply Qle_bool_iff in Hle. rewrite Hle. cbn.
    split; [reflexivity | ]. split; [reflexivity | ].
    eexists. split; [reflexivity | ]. split; [reflexivity | ].
    unfold cites. cbn. tauto.
  - intros e Hsome Hpos. rewrite Hsome.
    destruct (Qle_bool (get e) 0) eqn:E.
    + apply Qle_bool_iff in E. exfalso. apply (Qlt_not_le _ _ Hpos E).
    + cbn. split; [reflexivity | ]. split; [reflexivity | ].
      split; [reflexivity | ]. field. intros Hz. rewrite Hz in Hpos.
      apply (Qlt_irrefl _ Hpos).
Qed.

(** C7: for the tag "wrist" or "finger", [loadPIDSettings] always returns
    and leaves the plugin object as it was, handing only info-level
    statements to rosconsole; without the PID tag the gains are 2.5, 0
    and 0, and without the ForceLimits tag the limits are -10 and 10. *)
Theorem loadPIDSettings_defaults (PIDTag : string) st :
  PIDTag = "wrist" \/ PIDTag = "finger" ->
  let r := loadPIDSettings PIDTag st in
  exists s news,
    fst r = Returned s /\
    this (snd r) = this st /\
    rosout (snd r) = (rosout st ++ news)%list /\
    Forall (fun l => level l = LInfo) news /\
    (GetElement (sdf (this st)) (PIDTag ++ "PID") = None ->
       Kp s == 2.5 /\ Ki s == 0 /\ Kd s == 0) /\
    (GetElement (sdf (this st)) (PIDTag ++ "ForceLimits") = None ->
       min s == -10 /\ max s == 10).
Proof.
  intros Htag r. subst r. unfold loadPIDSettings. run_loader.
  assert (Hok : negb (PIDTag =? "wrist")%string && negb (PIDTag =? "finger")%string
                = false).
  { destruct Htag as [-> | ->]; reflexivity. }
  rewrite Hok. cbn [fst snd this rosout].
  destruct (GetElement (sdf (this st)) (PIDTag ++ "PID")) as [e1 | ];
    destruct (GetElement (sdf (this st)) (PIDTag ++ "ForceLimits")) as [e2 | ];
    cbn [fst snd this rosout];
    eexists; eexists;
    (split; [reflexivity | ]);
    (split; [reflexivity | ]);
    (split; [first [ symmetry; apply app_nil_r
                   | rewrite <- app_assoc; reflexivity
                   | reflexivity ] | ]);
    (split; [repeat constructor | ]);
    split; intros H; try discriminate H; cbn; repeat split; reflexivity.
Qed.

(** C8: [loadDebugMode] looks at debug/printDelayInSeconds only when the
    text of debug/printToConsole is "true".  Otherwise it returns with the
    debugging flag off and every other member as it was, whatever the
    delay tag holds.  When printing is requested, a missing delay tag
    gives the period 3.0, a delay <= 0 ends the process with status 1
    after one error-level statement that cites it, and any other delay
    becomes the period. *)
Theorem loadDebugMode_cases st :
  let _sdf := sdf (this st) in
  let r := loadDebugMode st in
  (printToConsole_true _sdf = false ->
     fst r = Returned tt /\
     this (snd r) = set_isDebuggingModeActive false (this st)) /\
  (printToConsole_true _sdf = true ->
     printDelayInSeconds _sdf = None ->
     fst r = Returned tt /\
     this (snd r) =
       set_isDebuggingModeActive true (set_debugUpdatePeriod 3.0 (this st))) /\
  (forall d, printToConsole_true _sdf = true ->
     printDelayInSeconds _sdf = Some d ->
     get d <= 0 ->
     fst r = Exited 1 /\
     exists l, rosout (snd r) = (rosout st ++ [l])%list /\
               is_error l = true /\ cites (get d) l) /\
  (forall d, printToConsole_true _sdf = true ->
     printDelayInSeconds _sdf = Some d ->
     0 < get d ->
     fst r = Returned tt /\
     this (snd r) =
       set_isDebuggingModeActive true (set_debugUpdatePeriod (get d) (this st))).
Proof.
  intros _sdf r. subst _sdf r.
  unfold printToConsole_true, printDelayInSeconds, loadDebugMode.
  run_loader. simpl_this.
  destruct (GetElement (sdf (this st)) "debug") as [debug | ].
  2: { repeat split; intros; try discriminate; reflexivity. }
  destruct (GetElement debug "printToConsole") as [e | ].
  2: { repeat split; intros; try discriminate; reflexivity. }
  change (@get string Get_string e) with (text e).
  destruct (text e =? "true")%string.
  2: { destruct (negb (text e =? "false")%string);
       repeat split; intros; try discriminate; reflexivity. }
  cbn [fst snd this rosout]. simpl_this.
  split; [intros H; discriminate H | ].
  split; [ | split].
  - intros _ Hnone. rewrite Hnone. cbn. split; reflexivity.
  - intros d _ Hsome Hle. rewrite Hsome. cbn [fst snd this rosout]. simpl_this.
    rewrite Qle_bool_decimal_zero.
    apply Qle_bool_iff in Hle. rewrite Hle.
    cbn. split; [reflexivity | ].
    eexists. split; [reflexivity | ]. split; [reflexivity | ].
    unfold cites. cbn. tauto.
  - intros d _ Hsome Hpos. rewrite Hsome. cbn [fst snd this rosout]. simpl_this.
    rewrite Qle_bool_decimal_zero.
    destruct (Qle_bool (get d) 0) eqn:E.
    + apply Qle_bool_iff in E. exfalso. apply (Qlt_not_le _ _ Hpos E).
    + cbn. split; reflexivity.
Qed.

End Loaders.

(** ** Load as a whole *)

Section Loading.

Context {Manager : Type}.
Context {Get_float : Get Q} {Get_Vector3 : Get Vector3} {Get_Vector2d : Get Vector2d}.

Implicit Types st : Process Manager.

Lemma Load_returns_inv {API : Api Manager} (_model : Model) (_sdf : Element) st st' :
  Load _model _sdf st = (Returned tt, st') -> loaded _model _sdf st'.
Proof.
  intros Hrun.
  assert (W : wp (Load _model _sdf) st
                 (fun _ s => s = st' -> loaded _model _sdf st')
                 (fun _ => True)).
  { unfold Load. repeat load_step. all: try exact I.
    intros ->. unfold loaded.
    match goal with H : this _ = _ |- _ => rewrite H end. simpl_this.
    exists e, i, e0, i0, e1, i1, pid, pid0, m, e2, e3.
    rewrite Hdt, Hdt0. repeat split; assumption. }
  unfold wp in W. rewrite Hrun in W. auto.
Qed.

Lemma Load_never_returns {API : Api Manager} (_model : Model) (_sdf : Element) st :
  (forall st', ~ loaded _model _sdf st') ->
  returns (fst (Load _model _sdf st)) = false.
Proof.
  intros Hno.
  destruct (Load _model _sdf st) as [[[] | status] st'] eqn:Hrun; [ | reflexivity].
  exfalso. apply (Hno st'). eapply Load_returns_inv. exact Hrun.
Qed.

End Loading.

(** ** Construction of the manager *)

Section Construction.

Context {Get_float : Get Q} {Get_Vector3 : Get Vector3} {Get_Vector2d : Get Vector2d}.

Lemma invalid_settings (s : PIDSettings) :
  dt s <= 0 \/ max s < min s -> valid s = false.
Proof.
  intros Hbad. destruct (valid s) eqn:E; [ | reflexivity].
  apply valid_true_iff in E. destruct E as [Hdt Hle].
  destruct Hbad as [Hbad | Hbad]; exfalso.
  - apply (Qlt_not_le _ _ Hdt Hbad).
  - apply (Qlt_not_le _ _ Hbad Hle).
Qed.

(** C4: the constructor of the manager ends the process whenever the wrist
    or the finger settings have dt <= 0 or min > max; and with this
    manager [Load] never returns on a configuration whose wristForceLimits
    or fingerForceLimits element gives a min above its max. *)
Theorem construction_fails_fast :
  (forall names wristPID fingerPID,
      (dt wristPID <= 0 \/ max wristPID < min wristPID) \/
      (dt fingerPID <= 0 \/ max fingerPID < min fingerPID) ->
      exists status, spec_construct names wristPID fingerPID = Exited status) /\
  (forall _model _sdf (st : Process GripperManager) PIDTag e,
      PIDTag = "wrist" \/ PIDTag = "finger" ->
      GetElement _sdf (PIDTag ++ "ForceLimits") = Some e ->
      y2 (get e) < x2 (get e) ->
      returns (fst (@Load _ spec_Api _ _ _ _model _sdf st)) = false).
Proof.
  split.
  - intros names wristPID fingerPID Hbad. exists 1%Z. unfold spec_construct.
    destruct Hbad as [Hbad | Hbad]; apply invalid_settings in Hbad; rewrite Hbad.
    + reflexivity.
    + rewrite andb_false_r. reflexivity.
  - intros _model _sdf st PIDTag e Htag Hsome Hlt.
    apply Load_never_returns.
    intros st' (ew & iw & el & il & er & ir & w & f & m & ewt & eft & H).
    destruct H as (_ & _ & _ & _ & _ & _ & _ & _ & _ & _ & Hw & Hf & Hc & _).
    cbn in Hc. unfold spec_construct in Hc.
    destruct (valid w) eqn:Ew; [ | discriminate Hc].
    destruct (valid f) eqn:Ef; [ | discriminate Hc].
    apply valid_true_iff in Ew. apply valid_true_iff in Ef.
    destruct Htag as [-> | ->]; cbn in Hsome.
    + rewrite Hsome in Hw. destruct Hw as [Hmin Hmax].
      destruct Ew as [_ Hle]. rewrite Hmin, Hmax in Hle.
      apply (Qlt_not_le _ _ Hlt Hle).
    + rewrite Hsome in Hf. destruct Hf as [Hmin Hmax].
      destruct Ef as [_ Hle]. rewrite Hmin, Hmax in Hle.
      apply (Qlt_not_le _ _ Hlt Hle).
Qed.

End Construction.

(** ** The update handler *)

Section Handler.

Context {Manager : Type} {API : Api Manager}.

Implicit Types (st : Process Manager) (p : GripperPlugin Manager).

Ltac run_handler :=
  unfold updateWorldEventHandler, bind, get_this, assign,
    GripperManager_getForces, JointSetForce, ROS_DEBUG_STREAM_COND, log, ret;
  cbn [fst snd this].

Lemma handler_closed st :
  sinceControl (this st) < updatePeriod (this st) ->
  updateWorldEventHandler st = (Returned tt, st).
Proof.
  intros Hlt. run_handler. fold (now (this st)). fold (sinceControl (this st)).
  destruct (Qlt_le_dec (sinceControl (this st)) (updatePeriod (this st))) as [_ | Hge].
  - reflexivity.
  - exfalso. apply (Qlt_not_le _ _ Hlt Hge).
Qed.

Lemma handler_open st :
  updatePeriod (this st) <= sinceControl (this st) ->
  exists desired l,
    leftFingerAngle desired == desiredFingerAngle (this st) / 2 /\
    rightFingerAngle desired == - (desiredFingerAngle (this st) / 2) /\
    wristAngle desired = desiredWristAngle (this st) /\
    snapshot (this st) desired l /\
    updateWorldEventHandler st =
    (Returned tt,
     if Qle_bool (debugUpdatePeriod (this st)) (sinceDebug (this st))
     then mkProcess
            (set_previousDebugUpdateTime (now (this st))
                                         (controlled (this st) desired))
            (if isDebuggingModeActive (this st)
             then (rosout st ++ [l])%list else rosout st)
            (loggerLevel st) (rosInitialized st)
     else mkProcess (controlled (this st) desired) (rosout st)
                    (loggerLevel st) (rosInitialized st)).
Proof.
  intros Hge.
  pose (desired := {| wristAngle := desiredWristAngle (this st);
                      leftFingerAngle := desiredFingerAngle (this st) / 2.0;
                      rightFingerAngle := (- desiredFingerAngle (this st)) / 2.0 |}).
  destruct (getForces (gripperManager (this st)) desired (measured (this st)))
    as [forces manager'] eqn:E.
  exists desired. eexists.
  unfold snapshot, controlled. rewrite E. subst desired.
  cbn [wristAngle leftFingerAngle rightFingerAngle fst].
  split; [field | ]. split; [field | ]. split; [reflexivity | ].
  run_handler. fold (now (this st)). fold (sinceControl (this st)).
  fold (sinceDebug (this st)). fold (measured (this st)).
  destruct (Qlt_le_dec (sinceControl (this st)) (updatePeriod (this st))) as [Hlt | _].
  { exfalso. apply (Qlt_not_le _ _ Hlt Hge). }
  simpl_this. rewrite E. cbn [fst snd this].
  split.
  2: { destruct (Qle_bool (debugUpdatePeriod (this st)) (sinceDebug (this st)));
       [ destruct (isDebuggingModeActive (this st)) | ]; reflexivity. }
  split; [reflexivity | ].
  unfold cites. cbn. tauto.
Qed.

Lemma set_previousDebugUpdateTime_same p :
  set_previousDebugUpdateTime (previousDebugUpdateTime p) p = p.
Proof. destruct p; reflexivity. Qed.

Lemma GetWorld_SetForce (j : JointPtr) (f : Q) (m : Model) :
  GetWorld (SetForce j f m) = GetWorld m.
Proof. destruct j; reflexivity. Qed.

Lemma controlled_frame p desired :
  desiredWristAngle (controlled p desired) = desiredWristAngle p /\
  desiredFingerAngle (controlled p desired) = desiredFingerAngle p /\
  updatePeriod (controlled p desired) = updatePeriod p /\
  previousUpdateTime (controlled p desired) = now p /\
  previousDebugUpdateTime (controlled p desired) = previousDebugUpdateTime p /\
  now (controlled p desired) = now p.
Proof.
  unfold controlled.
  destruct (getForces (gripperManager p) desired (measured p)) as [forces manager'].
  repeat split; try reflexivity.
  unfold now, applied. simpl_this. rewrite !GetWorld_SetForce. reflexivity.
Qed.

(** C1: once the finger topic has delivered [theta] and the wrist topic
    [omega], a poll on which the control gate fires passes to the manager
    a desired state whose left finger angle is theta/2, whose right finger
    angle is -(theta/2) and whose wrist angle is omega: the plugin object
    after the poll is the one obtained from [getForces] on that state and
    the measured angles.  The poll leaves the two targets as delivered. *)
Theorem desired_state_mirrors_finger_opening st (theta omega : Q) :
  let st1 := snd (setWristAngleHandler omega (snd (setFingerAngleHandler theta st))) in
  let r := updateWorldEventHandler st1 in
  updatePeriod (this st1) <= sinceControl (this st1) ->
  (exists desired,
      leftFingerAngle desired == theta / 2 /\
      rightFingerAngle desired == - (theta / 2) /\
      wristAngle desired = omega /\
      this (snd r) =
        set_previousDebugUpdateTime (previousDebugUpdateTime (this (snd r)))
                                    (controlled (this st1) desired)) /\
  desiredFingerAngle (this (snd r)) = theta /\
  desiredWristAngle (this (snd r)) = omega.
Proof.
  intros st1 r Hge. subst r.
  destruct (handler_open st1 Hge) as (desired & l & Hl & Hr & Hw & _ & Hrun).
  rewrite Hrun. cbn [snd].
  destruct (controlled_frame (this st1) desired) as (Fw & Ff & _).
  split.
  - exists desired. split; [exact Hl | ]. split; [exact Hr | ]. split; [exact Hw | ].
    destruct (Qle_bool (debugUpdatePeriod (this st1)) (sinceDebug (this st1)));
      cbn [this]; [reflexivity | ].
    symmetry. apply set_previousDebugUpdateTime_same.
  - destruct (Qle_bool (debugUpdatePeriod (this st1)) (sinceDebug (this st1)));
      simpl_this; rewrite Fw, Ff; split; reflexivity.
Qed.

(** C2: a poll on which less than the update period has passed since the
    last control update returns with the process unchanged; any other poll
    runs [getForces] once on the measured angles, stores the manager it
    returns, applies the three forces and sets the time of the last
    control update to the current time; with a period > 0, a second poll
    at the same simulated time changes nothing, however long the first
    one came after the previous update. *)
Theorem control_gate st :
  let p := this st in
  let r := updateWorldEventHandler st in
  (sinceControl p < updatePeriod p -> r = (Returned tt, st)) /\
  (updatePeriod p <= sinceControl p ->
     fst r = Returned tt /\
     previousUpdateTime (this (snd r)) = now p /\
     (exists desired,
         this (snd r) =
           set_previousDebugUpdateTime (previousDebugUpdateTime (this (snd r)))
                                       (controlled p desired)) /\
     (0 < updatePeriod p ->
        updateWorldEventHandler (snd r) = (Returned tt, snd r))).
Proof.
  intros p r. subst p r. split.
  - apply handler_closed.
  - intros Hge.
    destruct (handler_open st Hge) as (desired & l & _ & _ & _ & _ & Hrun).
    rewrite Hrun. cbn [fst snd].
    destruct (controlled_frame (this st) desired) as (_ & _ & Fp & Fu & _ & Fn).
    split; [reflexivity | ].
    split.
    { destruct (Qle_bool (debugUpdatePeriod (this st)) (sinceDebug (this st)));
        simpl_this; exact Fu. }
    split.
    { exists desired.
      destruct (Qle_bool (debugUpdatePeriod (this st)) (sinceDebug (this st)));
        cbn [this]; [reflexivity | ].
      symmetry. apply set_previousDebugUpdateTime_same. }
    intros Hpos. apply handler_closed.
    assert (Hzero : forall q : GripperPlugin Manager,
               now q = now (this st) ->
               previousUpdateTime q = now (this st) ->
               updatePeriod q = updatePeriod (this st) ->
               sinceControl q < updatePeriod q).
    { intros q Hn Hu Hq. unfold sinceControl. rewrite Hn, Hu, Hq.
      apply Qle_lt_trans with (y := 0); [ | exact Hpos].
      unfold Qminus. rewrite Qplus_opp_r. apply Qle_refl. }
    destruct (Qle_bool (debugUpdatePeriod (this st)) (sinceDebug (this st)));
      cbn [this]; apply Hzero; unfold now in *; simpl_this; assumption.
Qed.

(** C3, as the code has it: the debug gate is looked at only on a poll on
    which the control gate fires.  On a poll where the control gate stays
    closed, nothing is printed and the time of the last debug print is
    kept.  On a poll where it fires, the debug gate fires exactly when the
    debug period has passed since the last debug print: the time of the
    last debug print becomes the current time, and the snapshot of the
    measured angles, the desired angles and the applied forces is handed
    to rosconsole, at debug level, exactly when debugging mode is
    active. *)
Theorem debug_gate_inside_control_gate st :
  let p := this st in
  let r := updateWorldEventHandler st in
  (sinceControl p < updatePeriod p ->
     previousDebugUpdateTime (this (snd r)) = previousDebugUpdateTime p /\
     rosout (snd r) = rosout st) /\
  (updatePeriod p <= sinceControl p ->
   sinceDebug p < debugUpdatePeriod p ->
     previousDebugUpdateTime (this (snd r)) = previousDebugUpdateTime p /\
     rosout (snd r) = rosout st) /\
  (updatePeriod p <= sinceControl p ->
   debugUpdatePeriod p <= sinceDebug p ->
     previousDebugUpdateTime (this (snd r)) = now p /\
     exists desired l,
       snapshot p desired l /\
       rosout (snd r) =
         if isDebuggingModeActive p then (rosout st ++ [l])%list else rosout st).
Proof.
  intros p r. subst p r. split; [ | split].
  - intros Hlt. rewrite (handler_closed st Hlt). split; reflexivity.
  - intros Hge Hlt.
    destruct (handler_open st Hge) as (desired & l & _ & _ & _ & _ & Hrun).
    rewrite Hrun. cbn [snd].
    destruct (controlled_frame (this st) desired) as (_ & _ & _ & _ & Fd & _).
    destruct (Qle_bool (debugUpdatePeriod (this st)) (sinceDebug (this st))) eqn:E.
    + apply Qle_bool_iff in E. exfalso. apply (Qlt_not_le _ _ Hlt E).
    + cbn [this rosout]. split; [exact Fd | reflexivity].
  - intros Hge Hdue.
    destruct (handler_open st Hge) as (desired & l & _ & _ & _ & Hsnap & Hrun).
    rewrite Hrun. cbn [snd].
    apply Qle_bool_iff in Hdue. rewrite Hdue. cbn [this rosout].
    split; [reflexivity | ].
    exists desired, l. split; [exact Hsnap | reflexivity].
Qed.

End Handler.

(** ** Rules with the exit status and the logger level *)

Section HoareX.

Context {Manager : Type} {API : Api Manager}.

Implicit Types st : Process Manager.

Lemma wpx_bind {A B : Type} (m : M Manager A) (k : A -> M Manager B) st R X :
  wpx m st (fun a st' => wpx (k a) st' R X) X -> wpx (bind m k) st R X.
Proof.
  unfold wpx, bind. destruct (m st) as [[a | status] st']; auto.
Qed.

Lemma wpx_ret {A : Type} (a : A) st R X : R a st -> wpx (ret a) st R X.
Proof. auto. Qed.

Lemma wpx_get_this st R X : R (this st) st -> wpx get_this st R X.
Proof. auto. Qed.

Lemma wpx_assign {T : Type} (set : T -> GripperPlugin Manager -> GripperPlugin Manager)
    (v : T) st R X :
  (forall st',
      this st' = set v (this st) ->
      loggerLevel st' = loggerLevel st ->
      rosInitialized st' = rosInitialized st -> R tt st') ->
  wpx (assign set v) st R X.
Proof. intros H. apply H; reflexivity. Qed.

Lemma wpx_debug_cond c items st R X :
  (forall st',
      this st' = this st ->
      loggerLevel st' = loggerLevel st ->
      rosInitialized st' = rosInitialized st -> R tt st') ->
  wpx (ROS_DEBUG_STREAM_COND c items) st R X.
Proof. intros H. destruct c; apply H; reflexivity. Qed.

Lemma wpx_isInitialized st R X :
  R (rosInitialized st) st -> wpx isInitialized st R X.
Proof. auto. Qed.

Lemma wpx_ctor names wristPID fingerPID st R X :
  (forall m, construct names wristPID fingerPID = Returned m -> R m st) ->
  (forall status, construct names wristPID fingerPID = Exited status -> X status st) ->
  wpx (GripperManager_ctor names wristPID fingerPID) st R X.
Proof.
  intros HR HX. unfold wpx, GripperManager_ctor.
  destruct (construct names wristPID fingerPID) eqn:E; eauto.
Qed.

(** An error statement followed by [exit(1)]. *)
Lemma wpx_error_exit {A : Type} items st (R : A -> Process Manager -> Prop) X :
  (forall st', this st' = this st -> ends_with_error st' -> X 1%Z st') ->
  wpx (bind (ROS_ERROR_STREAM items) (fun _ => exit 1)) st R X.
Proof.
  intros H. unfold wpx, bind, ROS_ERROR_STREAM, log, exit.
  apply H; [reflexivity | ].
  exists (rosout st), (mkLogLine LError items). split; reflexivity.
Qed.

Lemma wpx_ret_if_exit items (c : bool) st R X :
  (c = false -> R tt st) ->
  (c = true ->
     forall st', this st' = this st -> ends_with_error st' -> X 1%Z st') ->
  wpx (if c then bind (ROS_ERROR_STREAM items) (fun _ => exit 1) else ret tt) st R X.
Proof.
  intros HR HX. destruct c.
  - apply wpx_error_exit. apply HX. reflexivity.
  - apply HR. reflexivity.
Qed.

End HoareX.

Section LoaderRulesX.

Context {Manager : Type}.
Context {Get_float : Get Q} {Get_Vector3 : Get Vector3} {Get_Vector2d : Get Vector2d}.

Implicit Types st : Process Manager.

Ltac run_loader :=
  unfold wpx, bind, get_this, assign, ROS_ERROR_STREAM, ROS_INFO_STREAM, log,
    set_logger_level, exit, ret;
  cbn [fst snd this rosout loggerLevel rosInitialized].

Ltac error_logged :=
  match goal with
  | |- ends_with_error ?s =>
    eexists; eexists; split; [cbn [rosout]; reflexivity | reflexivity]
  | |- ends_naming _ ?s =>
    eexists; eexists; split; [cbn [rosout]; reflexivity | ];
    split; [reflexivity | unfold names; cbn; tauto]
  end.

Lemma wpx_loadJoint jointTag st R X :
  (forall e i,
      GetElement (sdf (this st)) jointTag = Some e ->
      GetJoint (model (this st)) (get e) = Some i -> R (Some i) st) ->
  (forall st',
      GetElement (sdf (this st)) jointTag = None \/
      (exists e, GetElement (sdf (this st)) jointTag = Some e /\
                 GetJoint (model (this st)) (get e) = None) ->
      this st' = this st -> ends_with_error st' ->
      match GetElement (sdf (this st)) jointTag with
      | Some e => ends_naming (get e) st'
      | None => ends_naming jointTag st'
      end -> X 1%Z st') ->
  wpx (loadJoint jointTag) st R X.
Proof.
  intros HR HX. unfold loadJoint. run_loader.
  destruct (GetElement (sdf (this st)) jointTag) as [e | ] eqn:He.
  - destruct (GetJoint (model (this st)) (get e)) as [i | ] eqn:Hi; cbn.
    + apply (HR e i); [reflexivity | exact Hi].
    + apply HX; [right; exists e; split; [reflexivity | exact Hi] | reflexivity | | ];
        error_logged.
  - cbn. apply HX; [left; reflexivity | reflexivity | | ]; error_logged.
Qed.

Lemma wpx_loadSubscriptionTopic topicTag st R X :
  (forall e, GetElement (sdf (this st)) topicTag = Some e -> R (get e) st) ->
  (forall st',
      GetElement (sdf (this st)) topicTag = None ->
      this st' = this st -> ends_with_error st' -> ends_naming topicTag st' ->
      X 1%Z st') ->
  wpx (loadSubscriptionTopic topicTag) st R X.
Proof.
  intros HR HX. unfold loadSubscriptionTopic. run_loader.
  destruct (GetElement (sdf (this st)) topicTag) as [e | ] eqn:He; cbn.
  - apply (HR e). reflexivity.
  - apply HX; [reflexivity | reflexivity | | ]; error_logged.
Qed.

Lemma wpx_loadUpdatePeriod st R X :
  (forall st',
      ~ fatal_rate (sdf (this st)) ->
      0 < configured_rate (sdf (this st)) ->
      this st' = set_updatePeriod (1.0 / configured_rate (sdf (this st))) (this st) ->
      loggerLevel st' = loggerLevel st ->
      rosInitialized st' = rosInitialized st -> R tt st') ->
  (forall st',
      fatal_rate (sdf (this st)) ->
      this st' = this st -> ends_with_error st' -> X 1%Z st') ->
  wpx loadUpdatePeriod st R X.
Proof.
  intros HR HX. unfold loadUpdatePeriod, fatal_rate, configured_rate in *. run_loader.
  destruct (GetElement (sdf (this st)) "updateRate") as [e | ] eqn:He.
  - destruct (Qle_bool (get e) 0) eqn:E; cbn.
    + apply HX; [ | reflexivity | error_logged].
      exists e. split; [reflexivity | apply Qle_bool_iff; exact E].
    + apply Qle_bool_false in E.
      apply HR; try reflexivity; [ | exact E].
      intros (e' & He' & Hle). inversion He'; subst e'.
      apply (Qlt_not_le _ _ E Hle).
  - cbn. apply HR; try reflexivity.
    intros (e' & He' & _). discriminate He'.
Qed.

Lemma wpx_loadPIDSettings PIDTag st R X :
  PIDTag = "wrist" \/ PIDTag = "finger" ->
  (forall st',
      this st' = this st ->
      loggerLevel st' = loggerLevel st ->
      rosInitialized st' = rosInitialized st ->
      R (configured_settings (sdf (this st)) PIDTag (updatePeriod (this st))) st') ->
  wpx (loadPIDSettings PIDTag) st R X.
Proof.
  intros Htag HR. unfold loadPIDSettings. run_loader.
  assert (Hok : negb (PIDTag =? "wrist")%string && negb (PIDTag =? "finger")%string
                = false).
  { destruct Htag as [-> | ->]; reflexivity. }
  rewrite Hok. cbn [fst snd this rosout loggerLevel rosInitialized].
  unfold configured_settings, configured_gains, configured_limits in HR.
  destruct (GetElement (sdf (this st)) (PIDTag ++ "PID")) as [e1 | ];
    destruct (GetElement (sdf (this st)) (PIDTag ++ "ForceLimits")) as [e2 | ];
    cbn [fst snd this rosout loggerLevel rosInitialized];
    apply HR; reflexivity.
Qed.

Lemma wpx_loadDebugMode st R X :
  (forall d st',
      ~ fatal_debug (sdf (this st)) ->
      (printToConsole_true (sdf (this st)) = true ->
         d = configured_delay (sdf (this st))) ->
      (printToConsole_true (sdf (this st)) = false ->
         d = debugUpdatePeriod (this st)) ->
      this st' = set_isDebuggingModeActive (printToConsole_true (sdf (this st)))
                   (set_debugUpdatePeriod d (this st)) ->
      loggerLevel st' = (if printToConsole_true (sdf (this st))
                         then LDebug else loggerLevel st) ->
      rosInitialized st' = rosInitialized st -> R tt st') ->
  (forall b d st',
      fatal_debug (sdf (this st)) ->
      this st' = set_isDebuggingModeActive b (set_debugUpdatePeriod d (this st)) ->
      ends_with_error st' -> X 1%Z st') ->
  wpx loadDebugMode st R X.
Proof.
  intros HR HX.
  unfold loadDebugMode, fatal_debug, configured_delay, printToConsole_true,
    printDelayInSeconds in *.
  run_loader. simpl_this.
  destruct (GetElement (sdf (this st)) "debug") as [debug | ].
  2: { apply (HR (debugUpdatePeriod (this st)));
       first [ reflexivity | intros H; discriminate H | intros [H _]; discriminate H ]. }
  destruct (GetElement debug "printToConsole") as [e | ].
  2: { apply (HR (debugUpdatePeriod (this st)));
       first [ reflexivity | intros H; discriminate H | intros [H _]; discriminate H ]. }
  change (@get string Get_string e) with (text e) in *.
  destruct (text e =? "true")%string.
  2: { destruct (negb (text e =? "false")%string);
       apply (HR (debugUpdatePeriod (this st)));
       first [ reflexivity | intros H; discriminate H | intros [H _]; discriminate H ]. }
  cbn [fst snd this rosout loggerLevel rosInitialized]. simpl_this.
  destruct (GetElement debug "printDelayInSeconds") as [d | ].
  - cbn [fst snd this rosout loggerLevel rosInitialized]. simpl_this.
    rewrite Qle_bool_decimal_zero.
    destruct (Qle_bool (get d) 0) eqn:E; cbn.
    + eapply (HX true (get d)); [ | reflexivity | error_logged].
      split; [reflexivity | ]. exists d. split; [reflexivity | ].
      apply Qle_bool_iff. exact E.
    + apply Qle_bool_false in E.
      apply (HR (get d)); try reflexivity.
      * intros (_ & d' & Hd' & Hle). inversion Hd'; subst d'.
        apply (Qlt_not_le _ _ E Hle).
      * intros H. discriminate H.
  - cbn. apply (HR 3.0); try reflexivity.
    + intros (_ & d' & Hd' & _). discriminate Hd'.
    + intros H. discriminate H.
Qed.

End LoaderRulesX.

(** The equations [this st = ...], [loggerLevel st = ...] and
    [rosInitialized st = ...] of the current state are kept; those of the
    next state are rewritten with them. *)
Ltac rewrite_cur s' H :=
  repeat match goal with
         | Hold : this ?s = _ |- _ =>
           tryif constr_eq s s' then fail else
             match type of H with context [this s] => rewrite Hold in H end
         | Hold : loggerLevel ?s = _ |- _ =>
           tryif constr_eq s s' then fail else
             match type of H with context [loggerLevel s] => rewrite Hold in H end
         | Hold : rosInitialized ?s = _ |- _ =>
           tryif constr_eq s s' then fail else
             match type of H with context [rosInitialized s] => rewrite Hold in H end
         end;
  simpl_this.

Ltac rewrite_goal s' :=
  repeat match goal with
         | Hold : this ?s = _ |- context [this ?s] =>
           tryif constr_eq s s' then fail else rewrite Hold
         | Hold : loggerLevel ?s = _ |- context [loggerLevel ?s] =>
           tryif constr_eq s s' then fail else rewrite Hold
         | Hold : rosInitialized ?s = _ |- context [rosInitialized ?s] =>
           tryif constr_eq s s' then fail else rewrite Hold
         end;
  simpl_this.

Ltac clear_old s' :=
  rewrite_goal s';
  repeat match goal with
         | Hold : this ?s = _ |- _ =>
           tryif constr_eq s s' then fail else (clear Hold; try clear s)
         | Hold : loggerLevel ?s = _ |- _ =>
           tryif constr_eq s s' then fail else (clear Hold; try clear s)
         | Hold : rosInitialized ?s = _ |- _ =>
           tryif constr_eq s s' then fail else (clear Hold; try clear s)
         end.

Ltac xintro :=
  let s := fresh "st" in
  let H1 := fresh "Hthis" in
  let H2 := fresh "Hlvl" in
  let H3 := fresh "Hros" in
  intros s H1 H2 H3;
  rewrite_cur s H1; rewrite_cur s H2; rewrite_cur s H3; clear_old s.

Ltac xexit :=
  let s := fresh "st" in
  let H1 := fresh "Hthis" in
  let He := fresh "Herr" in
  intros s H1 He; rewrite_cur s H1; clear_old s.

Ltac xfact H := rewrite_cur tt H.

Ltac xstep :=
  lazymatch goal with
  | |- wpx (bind (ROS_ERROR_STREAM _) (fun _ => exit _)) _ _ _ =>
    apply wpx_error_exit; xexit
  | |- wpx (bind _ _) _ _ _ => apply wpx_bind
  | |- wpx (ret _) _ _ _ => apply wpx_ret; cbn beta
  | |- wpx get_this ?s _ _ =>
    apply wpx_get_this;
    try match goal with H : this s = _ |- _ => rewrite H end;
    cbn beta; simpl_this
  | |- wpx (assign _ _) _ _ _ => apply wpx_assign; xintro
  | |- wpx (ROS_DEBUG_STREAM_COND _ _) _ _ _ => apply wpx_debug_cond; xintro
  | |- wpx isInitialized ?s _ _ =>
    apply wpx_isInitialized;
    try match goal with H : rosInitialized s = _ |- _ => rewrite H end;
    cbn beta
  | |- wpx (GripperManager_ctor _ _ _) _ _ _ =>
    apply wpx_ctor;
    [ let m := fresh "m" in let H := fresh "Hctor" in intros m H
    | let c := fresh "status" in let H := fresh "Hctor" in intros c H ]
  | |- wpx loadDebugMode _ _ _ =>
    apply wpx_loadDebugMode;
    [ let d := fresh "d" in
      let s := fresh "st" in
      let Hnf := fresh "Hdebug" in
      let Hon := fresh "Hon" in
      let Hoff := fresh "Hoff" in
      let H1 := fresh "Hthis" in
      let H2 := fresh "Hlvl" in
      let H3 := fresh "Hros" in
      intros d s Hnf Hon Hoff H1 H2 H3;
      xfact Hnf; xfact Hon; xfact Hoff;
      rewrite_cur s H1; rewrite_cur s H2; rewrite_cur s H3; clear_old s
    | let b := fresh "b" in
      let d := fresh "d" in
      let s := fresh "st" in
      let Hf := fresh "Hfatal" in
      let H1 := fresh "Hthis" in
      let He := fresh "Herr" in
      intros b d s Hf H1 He; xfact Hf; rewrite_cur s H1; clear_old s ]
  | |- wpx loadUpdatePeriod _ _ _ =>
    apply wpx_loadUpdatePeriod;
    [ let s := fresh "st" in
      let Hnf := fresh "Hrate" in
      let Hpos := fresh "Hpos" in
      let H1 := fresh "Hthis" in
      let H2 := fresh "Hlvl" in
      let H3 := fresh "Hros" in
      intros s Hnf Hpos H1 H2 H3;
      xfact Hnf; xfact Hpos;
      rewrite_cur s H1; rewrite_cur s H2; rewrite_cur s H3; clear_old s
    | let s := fresh "st" in
      let Hf := fresh "Hfatal" in
      let H1 := fresh "Hthis" in
      let He := fresh "Herr" in
      intros s Hf H1 He; xfact Hf; rewrite_cur s H1; clear_old s ]
  | |- wpx (loadJoint _) _ _ _ =>
    apply wpx_loadJoint;
    [ let e := fresh "e" in
      let i := fresh "i" in
      let Hg := fresh "Hget" in
      let Hj := fresh "Hjoint" in
      intros e i Hg Hj; xfact Hg; xfact Hj
    | let s := fresh "st" in
      let Hf := fresh "Hfatal" in
      let H1 := fresh "Hthis" in
      let He := fresh "Herr" in
      let Hn := fresh "Hnamed" in
      intros s Hf H1 He Hn; xfact Hf; xfact Hn; rewrite_cur s H1; clear_old s ]
  | |- wpx (loadSubscriptionTopic _) _ _ _ =>
    apply wpx_loadSubscriptionTopic;
    [ let e := fresh "e" in
      let Hg := fresh "Hget" in
      intros e Hg; xfact Hg
    | let s := fresh "st" in
      let Hf := fresh "Hfatal" in
      let H1 := fresh "Hthis" in
      let He := fresh "Herr" in
      let Hn := fresh "Hnamed" in
      intros s Hf H1 He Hn; xfact Hf; rewrite_cur s H1; clear_old s ]
  | |- wpx (loadPIDSettings _) _ _ _ =>
    apply wpx_loadPIDSettings;
    [ first [left; reflexivity | right; reflexivity] | xintro ]
  | |- wpx (if negb ?b then _ else _) _ _ _ =>
    let H := fresh "Hinit" in
    destruct b eqn:H; apply eq_sym in H; cbn [negb]
  end.

Section LoadRun.

Context {Manager : Type} {API : Api Manager}.
Context {Get_float : Get Q} {Get_Vector3 : Get Vector3} {Get_Vector2d : Get Vector2d}.

Implicit Types st : Process Manager.

Lemma resolved_not_misconfigured (_model : Model) (_sdf : Element)
    ew el er ewt eft iw il ir :
  GetElement _sdf "wristJoint" = Some ew ->
  GetJoint _model (get ew) = Some iw ->
  GetElement _sdf "leftFingerJoint" = Some el ->
  GetJoint _model (get el) = Some il ->
  GetElement _sdf "rightFingerJoint" = Some er ->
  GetJoint _model (get er) = Some ir ->
  GetElement _sdf "wristTopic" = Some ewt ->
  GetElement _sdf "fingerTopic" = Some eft ->
  ~ misconfigured _model _sdf.
Proof.
  intros Hw Hwj Hl Hlj Hr Hrj Hwt Hft
         [(tag & Hin & Hnone) | (tag & e & Hin & Hsome & Hnone)].
  - cbn in Hin.
    destruct Hin as [<- | [<- | [<- | [<- | [<- | []]]]]]; congruence.
  - cbn in Hin.
    destruct Hin as [<- | [<- | [<- | []]]]; congruence.
Qed.

Lemma unresolved_misconfigured (_model : Model) (_sdf : Element) (jointTag : string) :
  In jointTag joint_tags ->
  GetElement _sdf jointTag = None \/
  (exists e, GetElement _sdf jointTag = Some e /\ GetJoint _model (get e) = None) ->
  misconfigured _model _sdf.
Proof.
  intros Hin [Hnone | (e & Hsome & Hnone)].
  - left. exists jointTag. split; [ | exact Hnone].
    cbn in Hin. cbn. tauto.
  - right. exists jointTag, e. auto.
Qed.

Lemma configured_manager_resolved (_model : Model) (_sdf : Element) ew el er iw il ir :
  GetElement _sdf "wristJoint" = Some ew ->
  GetJoint _model (get ew) = Some iw ->
  GetElement _sdf "leftFingerJoint" = Some el ->
  GetJoint _model (get el) = Some il ->
  GetElement _sdf "rightFingerJoint" = Some er ->
  GetJoint _model (get er) = Some ir ->
  configured_manager _model _sdf =
  construct
    {| wristJointName := GetName _model ++ "_" ++ JointGetName _model (Some iw);
       leftFingerJointName := GetName _model ++ "_" ++ JointGetName _model (Some il);
       rightFingerJointName := GetName _model ++ "_" ++ JointGetName _model (Some ir) |}
    (configured_settings _sdf "wrist" (1.0 / configured_rate _sdf))
    (configured_settings _sdf "finger" (1.0 / configured_rate _sdf)).
Proof.
  intros Hw Hwj Hl Hlj Hr Hrj.
  unfold configured_manager, configured_names, configured_joint.
  rewrite Hw, Hl, Hr, Hwj, Hlj, Hrj. reflexivity.
Qed.

Ltac untouched :=
  match goal with
  | H : this _ = _ |- _ => rewrite H
  end;
  simpl_this; repeat split; try reflexivity.

Lemma Load_outcome (_model : Model) (_sdf : Element) st :
  wpx (Load _model _sdf) st
      (fun _ st' => Load_returned _model _sdf st st')
      (fun status st' => Load_exited _model _sdf st status st').
Proof.
  unfold Load. repeat xstep.
  - (* Load returns *)
    pose proof (configured_manager_resolved _ _ _ _ _ _ _ _
                  Hget Hjoint Hget0 Hjoint0 Hget1 Hjoint1) as Hmgr.
    split; [ | split; [congruence | ]].
    + split; [exact Hdebug | ]. split; [exact Hrate | ].
      split; [eapply resolved_not_misconfigured; eassumption | ].
      split; [rewrite Hmgr, Hctor; reflexivity | ]. symmetry. exact Hinit.
    + exists d, m. split; [ | split; [ | split]].
      * rewrite Hthis0. unfold loaded_plugin, configured_joint, configured_text.
        rewrite Hget, Hget0, Hget1, Hget2, Hget3, Hjoint, Hjoint0, Hjoint1.
        reflexivity.
      * rewrite Hmgr. exact Hctor.
      * intros Hon'. split; [exact (Hon Hon') | ]. rewrite Hlvl0, Hon'. reflexivity.
      * intros Hoff'. split; [exact (Hoff Hoff') | ]. rewrite Hlvl0, Hoff'. reflexivity.
  - (* no fingerTopic tag *)
    split; [ | split; [left; split; [reflexivity | assumption] | ]].
    + intros (_ & _ & Hm & _). apply Hm. left. exists "fingerTopic".
      split; [cbn; tauto | exact Hfatal].
    + untouched. intros Hoff'. congruence.
  - (* no wristTopic tag *)
    split; [ | split; [left; split; [reflexivity | assumption] | ]].
    + intros (_ & _ & Hm & _). apply Hm. left. exists "wristTopic".
      split; [cbn; tauto | exact Hfatal].
    + untouched. intros Hoff'. congruence.
  - (* ROS is not initialized *)
    split; [ | split; [left; split; [reflexivity | assumption] | ]].
    + intros (_ & _ & _ & _ & Hros'). congruence.
    + untouched.
  - (* the constructor exits *)
    pose proof (configured_manager_resolved _ _ _ _ _ _ _ _
                  Hget Hjoint Hget0 Hjoint0 Hget1 Hjoint1) as Hmgr.
    split; [ | split; [right; rewrite Hmgr; exact Hctor | ]].
    + intros (_ & _ & _ & Hc & _). rewrite Hmgr, Hctor in Hc. discriminate Hc.
    + untouched.
  - (* rightFingerJoint *)
    split; [ | split; [left; split; [reflexivity | assumption] | ]].
    + intros (_ & _ & Hm & _). apply Hm.
      apply (unresolved_misconfigured _ _ "rightFingerJoint"); [cbn; tauto | exact Hfatal].
    + untouched.
  - (* leftFingerJoint *)
    split; [ | split; [left; split; [reflexivity | assumption] | ]].
    + intros (_ & _ & Hm & _). apply Hm.
      apply (unresolved_misconfigured _ _ "leftFingerJoint"); [cbn; tauto | exact Hfatal].
    + untouched.
  - (* wristJoint *)
    split; [ | split; [left; split; [reflexivity | assumption] | ]].
    + intros (_ & _ & Hm & _). apply Hm.
      apply (unresolved_misconfigured _ _ "wristJoint"); [cbn; tauto | exact Hfatal].
    + untouched.
  - (* updateRate <= 0 *)
    split; [ | split; [left; split; [reflexivity | assumption] | ]].
    + intros (_ & Hr & _). exact (Hr Hfatal).
    + untouched.
  - (* printDelayInSeconds <= 0 *)
    split; [ | split; [left; split; [reflexivity | assumption] | ]].
    + intros (Hd & _). exact (Hd Hfatal).
    + untouched.
Qed.

End LoadRun.

(** ** What [Load] establishes *)

Section LoadFacts.

Context {Manager : Type} {API : Api Manager}.
Context {Get_float : Get Q} {Get_Vector3 : Get Vector3} {Get_Vector2d : Get Vector2d}.

Implicit Types st : Process Manager.

Lemma Load_returned_inv (_model : Model) (_sdf : Element) st st' :
  Load _model _sdf st = (Returned tt, st') -> Load_returned _model _sdf st st'.
Proof.
  intros Hrun. pose proof (Load_outcome _model _sdf st) as W.
  unfold wpx in W. rewrite Hrun in W. exact W.
Qed.

Lemma Load_exited_inv (_model : Model) (_sdf : Element) st status st' :
  Load _model _sdf st = (Exited status, st') -> Load_exited _model _sdf st status st'.
Proof.
  intros Hrun. pose proof (Load_outcome _model _sdf st) as W.
  unfold wpx in W. rewrite Hrun in W. exact W.
Qed.

Lemma find_joint_designates (name : string) (l : list Joint) (k i : nat) :
  find_joint name l k = Some i ->
  (k <= i)%nat /\
  (exists j, nth_error l (i - k) = Some j /\ jointName j = name) /\
  (forall n j, (n < i - k)%nat -> nth_error l n = Some j -> jointName j <> name).
Proof.
  revert k. induction l as [ | j0 l IH]; intros k Hfind; cbn in Hfind.
  - discriminate Hfind.
  - destruct (jointName j0 =? name)%string eqn:E.
    + inversion Hfind; subst i. rewrite Nat.sub_diag.
      split; [lia | ]. split.
      * exists j0. split; [reflexivity | ]. apply String.eqb_eq. exact E.
      * intros n j Hn. lia.
    + destruct (IH (S k) Hfind) as (Hle & (j & Hnth & Hname) & Hfirst).
      split; [lia | ]. split.
      * exists j. split; [ | exact Hname].
        replace (i - k)%nat with (S (i - S k)) by lia. exact Hnth.
      * intros n j' Hn Hnth'. destruct n as [ | n].
        -- cbn in Hnth'. inversion Hnth'; subst j'.
           apply String.eqb_neq. exact E.
        -- cbn in Hnth'. apply (Hfirst n j'); [lia | exact Hnth'].
Qed.

Lemma GetJoint_designates (m : Model) (name : string) (i : nat) :
  GetJoint m name = Some i -> designates m (Some i) name.
Proof.
  intros H. apply find_joint_designates in H.
  destruct H as (_ & (j & Hnth & Hname) & _).
  rewrite Nat.sub_0_r in Hnth. exists j. split; assumption.
Qed.

Lemma configured_joint_designates (_model : Model) (_sdf : Element) (jointTag : string) :
  In jointTag joint_tags ->
  ~ misconfigured _model _sdf ->
  designates _model (configured_joint _model _sdf jointTag)
             (configured_text _sdf jointTag).
Proof.
  intros Hin Hok. unfold configured_joint, configured_text.
  destruct (GetElement _sdf jointTag) as [e | ] eqn:He.
  - destruct (GetJoint _model (get e)) as [i | ] eqn:Hi.
    + apply GetJoint_designates. exact Hi.
    + exfalso. apply Hok. right. exists jointTag, e. auto.
  - exfalso. apply Hok. left. exists jointTag. split; [ | exact He].
    cbn in Hin. cbn. tauto.
Qed.

(** X1: [Load] returns exactly on a well-configured plugin: no debug delay
    <= 0 while printing is requested, no update rate <= 0, the five
    mandatory tags present with joints that the model has, a constructor
    that returns on the configured names and settings, and ROS
    initialized. *)
Theorem Load_returns_iff (_model : Model) (_sdf : Element) st :
  returns (fst (Load _model _sdf st)) = true <->
  well_configured _model _sdf (rosInitialized st).
Proof.
  pose proof (Load_outcome _model _sdf st) as W. unfold wpx in W.
  destruct (Load _model _sdf st) as [[[] | status] st']; cbn [fst returns].
  - destruct W as (Hok & _). split; [intros _; exact Hok | reflexivity].
  - destruct W as (Hno & _). split; [intros H; discriminate H | ].
    intros Hok. exfalso. exact (Hno Hok).
Qed.

(** X2: [Load] never exits silently.  When it exits, either the constructor
    of the manager has ended the process with that status, or the status
    is 1 and the last statement handed to rosconsole is an error. *)
Theorem Load_exit_reported (_model : Model) (_sdf : Element) st status st' :
  Load _model _sdf st = (Exited status, st') ->
  status = 1%Z /\ ends_with_error st' \/
  configured_manager _model _sdf = Exited status.
Proof.
  intros Hrun. apply Load_exited_inv in Hrun.
  destruct Hrun as (_ & H & _). exact H.
Qed.

(** X3: a [Load] that exits has created no subscriber and has not started
    the queue thread; without ROS it always exits, and then it has created
    no node handle either; and whether it returns or exits, it leaves the
    two targets as they were. *)
Theorem Load_exit_leaves_no_subscription (_model : Model) (_sdf : Element) st :
  let r := Load _model _sdf st in
  (returns (fst r) = false ->
     wristAngleSubscriber (this (snd r)) = wristAngleSubscriber (this st) /\
     fingerAngleSubscriber (this (snd r)) = fingerAngleSubscriber (this st) /\
     rosQueueThread (this (snd r)) = rosQueueThread (this st)) /\
  (rosInitialized st = false ->
     returns (fst r) = false /\ rosNode (this (snd r)) = rosNode (this st)) /\
  desiredWristAngle (this (snd r)) = desiredWristAngle (this st) /\
  desiredFingerAngle (this (snd r)) = desiredFingerAngle (this st).
Proof.
  intros r. subst r.
  pose proof (Load_outcome _model _sdf st) as W. unfold wpx in W.
  destruct (Load _model _sdf st) as [[[] | status] st']; cbn [fst snd returns].
  - destruct W as ((_ & _ & _ & _ & Hros) & _ & d & m & Hthis & _).
    split; [intros H; discriminate H | ].
    split; [intros Hoff; congruence | ].
    rewrite Hthis. split; reflexivity.
  - destruct W as (_ & _ & Hw & Hf & Hq & Hn & Hdw & Hdf).
    split; [intros _; auto | ].
    split; [intros Hoff; split; [reflexivity | exact (Hn Hoff)] | ].
    split; assumption.
Qed.

(** X4: after a [Load] that returned, the three joint pointers of the plugin
    designate joints of the model with the configured names, so the angles
    that a poll measures are the angles of those joints. *)
Theorem Load_resolves_joints (_model : Model) (_sdf : Element) st st' :
  Load _model _sdf st = (Returned tt, st') ->
  exists jw jl jr,
    deref (model (this st')) (wristJoint (this st')) = Some jw /\
    jointName jw = configured_text _sdf "wristJoint" /\
    deref (model (this st')) (leftFingerJoint (this st')) = Some jl /\
    jointName jl = configured_text _sdf "leftFingerJoint" /\
    deref (model (this st')) (rightFingerJoint (this st')) = Some jr /\
    jointName jr = configured_text _sdf "rightFingerJoint" /\
    measured (this st') =
      {| wristAngle := angle jw;
         leftFingerAngle := angle jl;
         rightFingerAngle := angle jr |}.
Proof.
  intros Hrun. apply Load_returned_inv in Hrun.
  destruct Hrun as ((_ & _ & Hok & _) & _ & d & m & Hthis & _).
  destruct (configured_joint_designates _model _sdf "wristJoint") as (jw & Hw & Hwn);
    [cbn; tauto | exact Hok | ].
  destruct (configured_joint_designates _model _sdf "leftFingerJoint") as (jl & Hl & Hln);
    [cbn; tauto | exact Hok | ].
  destruct (configured_joint_designates _model _sdf "rightFingerJoint") as (jr & Hr & Hrn);
    [cbn; tauto | exact Hok | ].
  exists jw, jl, jr. unfold measured, GetAngle. rewrite Hthis.
  unfold loaded_plugin. simpl_this. rewrite Hw, Hl, Hr. repeat split; assumption.
Qed.

(** X5: after a [Load] that returned, the node handle is named after the
    model, the handler is connected and the queue thread started; the wrist
    topic is subscribed with a queue of one message and the wrist callback,
    the finger topic with a queue of one message and the finger callback;
    so a message on the wrist subscription sets the wrist target and leaves
    the finger target, and conversely. *)
Theorem Load_wires_subscriptions (_model : Model) (_sdf : Element) st st' :
  Load _model _sdf st = (Returned tt, st') ->
  updateConnection (this st') = true /\
  rosQueueThread (this st') = true /\
  rosNode (this st') = Some (GetName _model ++ "_gripper") /\
  exists w f,
    wristAngleSubscriber (this st') = Some w /\
    fingerAngleSubscriber (this st') = Some f /\
    topic w = configured_text _sdf "wristTopic" /\
    topic f = configured_text _sdf "fingerTopic" /\
    queue_size w = 1%nat /\ queue_size f = 1%nat /\
    (forall data,
        this (snd (invoke (callback w) data st')) =
        set_desiredWristAngle data (this st')) /\
    (forall data,
        this (snd (invoke (callback f) data st')) =
        set_desiredFingerAngle data (this st')).
Proof.
  intros Hrun. apply Load_returned_inv in Hrun.
  destruct Hrun as (_ & _ & d & m & Hthis & _).
  rewrite Hthis. unfold loaded_plugin. simpl_this.
  split; [reflexivity | ]. split; [reflexivity | ]. split; [reflexivity | ].
  eexists. eexists. split; [reflexivity | ]. split; [reflexivity | ].
  cbn. repeat split; try reflexivity.
  - intros data. rewrite Hthis. reflexivity.
  - intros data. rewrite Hthis. reflexivity.
Qed.


(** X7: after a [Load] that returned, debugging mode is active exactly when
    the text of debug/printToConsole is "true".  When it is, the debug
    period is the value of debug/printDelayInSeconds, or 3.0 without that
    tag, and the level of the default logger is Debug; when it is not, the
    debug period and the level are left as they were before loading. *)
Theorem Load_debug_configuration (_model : Model) (_sdf : Element) st st' :
  Load _model _sdf st = (Returned tt, st') ->
  isDebuggingModeActive (this st') = printToConsole_true _sdf /\
  (printToConsole_true _sdf = true ->
     debugUpdatePeriod (this st') = configured_delay _sdf /\
     loggerLevel st' = LDebug) /\
  (printToConsole_true _sdf = false ->
     debugUpdatePeriod (this st') = debugUpdatePeriod (this st) /\
     loggerLevel st' = loggerLevel st).
Proof.
  intros Hrun. apply Load_returned_inv in Hrun.
  destruct Hrun as (_ & _ & d & m & Hthis & _ & Hon & Hoff).
  rewrite Hthis. unfold loaded_plugin. simpl_this.
  split; [reflexivity | ]. split; assumption.
Qed.

End LoadFacts.

(** ** The first fault that [Load] meets *)

Section Faults.

Context {Manager : Type} {API : Api Manager}.
Context {Get_float : Get Q} {Get_Vector3 : Get Vector3} {Get_Vector2d : Get Vector2d}.

Implicit Types st : Process Manager.




Ltac run_loader :=
  unfold bind, get_this, assign, ROS_ERROR_STREAM, ROS_INFO_STREAM, log,
    set_logger_level, exit, ret;
  cbn [fst snd this rosout].




End Faults.

(** ** The update period on its way to the settings *)

Section Periods.

Context {Manager : Type}.
Context {Get_float : Get Q} {Get_Vector3 : Get Vector3} {Get_Vector2d : Get Vector2d}.

Implicit Types st : Process Manager.

Lemma Qeq_bool_positive (q : Q) : 0 < q -> Qeq_bool q 0 = false.
Proof.
  intros Hpos. destruct (Qeq_bool q 0) eqn:E; [ | reflexivity].
  apply Qeq_bool_iff in E. rewrite E in Hpos. exfalso. apply (Qlt_irrefl _ Hpos).
Qed.

(** C10: the settings that [loadPIDSettings] returns have dt equal to the
    update period of the plugin, and when [Load] returns, the manager of
    the plugin was constructed from settings whose dt is that period,
    which is 1.0 divided by the configured rate: nothing between
    loadUpdatePeriod and the constructor looks at the period again.  On
    finite rates loadUpdatePeriod is the function [Ieee.loadUpdatePeriod]
    of the value of the updateRate tag.  That function returns a period
    that is not > 0 exactly on the rates +infinity and NaN, which pass
    the test updateRate <= 0 of line 335: the period is 0 for +infinity
    and NaN for NaN. *)
Theorem infinite_rate_gives_zero_dt :
  (forall PIDTag st s st',
      loadPIDSettings PIDTag st = (Returned s, st') ->
      dt s = updatePeriod (this st)) /\
  (forall (API : Api Manager) _model _sdf st st',
      Load _model _sdf st = (Returned tt, st') ->
      updatePeriod (this st') = 1.0 / configured_rate _sdf /\
      construct (configured_names _model _sdf)
                (configured_settings _sdf "wrist" (updatePeriod (this st')))
                (configured_settings _sdf "finger" (updatePeriod (this st')))
      = Returned (gripperManager (this st'))) /\
  (forall st,
      Ieee.loadUpdatePeriod
        (option_map (fun e => Ieee.Finite (get e))
                    (GetElement (sdf (this st)) "updateRate"))
      = match fst (loadUpdatePeriod st) with
        | Returned _ =>
          Returned (Ieee.Finite (updatePeriod (this (snd (loadUpdatePeriod st)))))
        | Exited status => Exited status
        end) /\
  (forall updateRate period,
      Ieee.loadUpdatePeriod (Some updateRate) = Returned period ->
      (Ieee.lt (Ieee.Finite 0) period = false <->
       updateRate = Ieee.PlusInfinity \/ updateRate = Ieee.NaN)) /\
  Ieee.loadUpdatePeriod (Some Ieee.PlusInfinity) = Returned (Ieee.Finite 0) /\
  Ieee.loadUpdatePeriod (Some Ieee.NaN) = Returned Ieee.NaN.
Proof.
  split; [ | split; [ | split; [ | split; [ | split]]]].
  - intros PIDTag st s st' Hrun.
    assert (W : wp (loadPIDSettings PIDTag) st
                   (fun s0 _ => dt s0 = updatePeriod (this st)) (fun _ => True)).
    { apply wp_loadPIDSettings; auto. }
    unfold wp in W. rewrite Hrun in W. exact W.
  - intros API _model _sdf st st' Hrun. apply Load_returned_inv in Hrun.
    destruct Hrun as (_ & _ & d & m & Hthis & Hctor & _).
    rewrite Hthis. unfold loaded_plugin. simpl_this.
    split; [reflexivity | exact Hctor].
  - intros st. unfold loadUpdatePeriod, Ieee.loadUpdatePeriod.
    unfold bind, get_this, assign, ROS_ERROR_STREAM, ROS_INFO_STREAM, log, exit, ret.
    cbn [fst snd this rosout].
    destruct (GetElement (sdf (this st)) "updateRate") as [e | ];
      cbn [option_map Ieee.le].
    + destruct (Qle_bool (get e) 0) eqn:E; cbn [fst snd this]; [reflexivity | ].
      apply Qle_bool_false in E. simpl_this.
      unfold Ieee.div. rewrite (Qeq_bool_positive _ E). reflexivity.
    + cbn [fst snd this]. simpl_this. reflexivity.
  - intros updateRate period. unfold Ieee.loadUpdatePeriod.
    destruct updateRate as [q | | | ]; cbn [Ieee.le Ieee.div].
    + destruct (Qle_bool q 0) eqn:E; [intros H; discriminate H | ].
      apply Qle_bool_false in E. rewrite (Qeq_bool_positive _ E).
      intros H. inversion H; subst period. cbn [Ieee.lt].
      assert (Hpos : 0 < 1.0 / q) by (apply Qlt_shift_div_l; lra).
      split.
      * intros Hle. apply negb_false_iff in Hle. apply Qle_bool_iff in Hle.
        exfalso. apply (Qlt_not_le _ _ Hpos Hle).
      * intros [H0 | H0]; discriminate H0.
    + intros H. inversion H; subst period. split; [auto | reflexivity].
    + intros H. discriminate H.
    + intros H. inversion H; subst period. split; [auto | reflexivity].
  - reflexivity.
  - reflexivity.
Qed.

End Periods.

(** ** More on the loaders *)

Section LoadersMore.

Context {Manager : Type}.
Context {Get_float : Get Q} {Get_Vector3 : Get Vector3} {Get_Vector2d : Get Vector2d}.

Implicit Types st : Process Manager.

Ltac run_loader :=
  unfold bind, get_this, assign, ROS_ERROR_STREAM, ROS_INFO_STREAM, log,
    set_logger_level, exit, ret;
  cbn [fst snd this rosout loggerLevel rosInitialized].

(** X8: [loadPIDSettings] on a tag other than "wrist" and "finger" hands one
    error statement naming the tag to rosconsole and ends the process with
    status 1, whatever the configuration holds; the plugin object is left
    as it was. *)
Theorem loadPIDSettings_invalid_tag (PIDTag : string) st :
  PIDTag <> "wrist" -> PIDTag <> "finger" ->
  let r := loadPIDSettings PIDTag st in
  fst r = Exited 1 /\
  this (snd r) = this st /\
  exists l, rosout (snd r) = (rosout st ++ [l])%list /\
            is_error l = true /\ names PIDTag l.
Proof.
  intros Hw Hf r. subst r. unfold loadPIDSettings. run_loader.
  apply String.eqb_neq in Hw. apply String.eqb_neq in Hf. rewrite Hw, Hf. cbn.
  split; [reflexivity | ]. split; [reflexivity | ].
  eexists. split; [reflexivity | ]. split; [reflexivity | ].
  unfold names. cbn. tauto.
Qed.

(** X9: for the tag "wrist" or "finger", [loadPIDSettings] takes the gains
    from the PID tag and the limits from the ForceLimits tag independently
    of each other, each from the configuration when the tag is there and
    from the defaults when it is not, with dt the update period; it hands
    rosconsole one info statement naming the group for each missing tag and
    nothing else. *)
Theorem loadPIDSettings_mixes (PIDTag : string) st :
  PIDTag = "wrist" \/ PIDTag = "finger" ->
  let r := loadPIDSettings PIDTag st in
  exists s news,
    fst r = Returned s /\
    gains_from s (GetElement (sdf (this st)) (PIDTag ++ "PID")) /\
    limits_from s (GetElement (sdf (this st)) (PIDTag ++ "ForceLimits")) /\
    dt s = updatePeriod (this st) /\
    rosout (snd r) = (rosout st ++ news)%list /\
    List.length news = missing_tags (sdf (this st)) PIDTag /\
    Forall (fun l => level l = LInfo /\ names PIDTag l) news.
Proof.
  intros Htag r. subst r. unfold loadPIDSettings, missing_tags, HasElement. run_loader.
  assert (Hok : negb (PIDTag =? "wrist")%string && negb (PIDTag =? "finger")%string
                = false).
  { destruct Htag as [-> | ->]; reflexivity. }
  rewrite Hok. cbn [fst snd this rosout].
  destruct (GetElement (sdf (this st)) (PIDTag ++ "PID")) as [e1 | ];
    destruct (GetElement (sdf (this st)) (PIDTag ++ "ForceLimits")) as [e2 | ];
    cbn [fst snd this rosout];
    eexists; eexists;
    (split; [reflexivity | ]);
    (split; [cbn; auto | ]);
    (split; [cbn; auto | ]);
    (split; [reflexivity | ]);
    (split; [first [ symmetry; apply app_nil_r
                   | rewrite <- app_assoc; reflexivity
                   | reflexivity ] | ]);
    (split; [reflexivity | ]);
    repeat constructor; unfold names; cbn; tauto.
Qed.

(** X10: when the joint tag is there and the model has a joint of the name
    it gives, [loadJoint] returns with the process unchanged, and the
    pointer it returns designates the first joint of the model with that
    name. *)
Theorem loadJoint_resolves (jointTag : string) (e : Element) (i : nat) st :
  GetElement (sdf (this st)) jointTag = Some e ->
  GetJoint (model (this st)) (get e) = Some i ->
  loadJoint jointTag st = (Returned (Some i), st) /\
  designates (model (this st)) (Some i) (text e) /\
  (forall n j, (n < i)%nat ->
               nth_error (joints (model (this st))) n = Some j ->
               jointName j <> text e).
Proof.
  intros He Hi. split; [ | split].
  - unfold loadJoint. run_loader. rewrite He, Hi. reflexivity.
  - apply GetJoint_designates. exact Hi.
  - apply find_joint_designates in Hi. destruct Hi as (_ & _ & Hfirst).
    intros n j Hn. apply Hfirst. lia.
Qed.

(** X11: what [loadDebugMode] tells rosconsole when printing is not
    requested.  With the text "false" it says nothing; with any other text
    than "true" it hands over one info statement naming that text; without
    the debug tag or without its printToConsole tag it hands over one info
    statement.  In all these cases the level of the logger is kept.  When
    printing is requested and the function returns, the level is Debug. *)
Theorem loadDebugMode_diagnostics st :
  let r := loadDebugMode st in
  (forall debug e,
      GetElement (sdf (this st)) "debug" = Some debug ->
      GetElement debug "printToConsole" = Some e ->
      text e = "false" ->
      rosout (snd r) = rosout st /\ loggerLevel (snd r) = loggerLevel st) /\
  (forall debug e,
      GetElement (sdf (this st)) "debug" = Some debug ->
      GetElement debug "printToConsole" = Some e ->
      text e <> "true" -> text e <> "false" ->
      loggerLevel (snd r) = loggerLevel st /\
      exists l, rosout (snd r) = (rosout st ++ [l])%list /\
                level l = LInfo /\ names (text e) l) /\
  (GetElement (sdf (this st)) "debug" = None \/
   (exists debug, GetElement (sdf (this st)) "debug" = Some debug /\
                  GetElement debug "printToConsole" = None) ->
     loggerLevel (snd r) = loggerLevel st /\
     exists l, rosout (snd r) = (rosout st ++ [l])%list /\ level l = LInfo) /\
  (printToConsole_true (sdf (this st)) = true ->
   returns (fst r) = true ->
     loggerLevel (snd r) = LDebug).
Proof.
  intros r. subst r. unfold loadDebugMode, printToConsole_true. run_loader. simpl_this.
  split; [ | split; [ | split]].
  - intros debug e Hd He Htext. rewrite Hd, He.
    change (@get string Get_string e) with (text e). rewrite Htext. cbn.
    split; reflexivity.
  - intros debug e Hd He Ht Hf. rewrite Hd, He.
    change (@get string Get_string e) with (text e).
    apply String.eqb_neq in Ht. apply String.eqb_neq in Hf. rewrite Ht, Hf. cbn.
    split; [reflexivity | ].
    eexists. split; [reflexivity | ]. split; [reflexivity | ].
    unfold names. cbn. tauto.
  - intros [Hd | (debug & Hd & He)].
    + rewrite Hd. cbn. split; [reflexivity | ].
      eexists. split; reflexivity.
    + rewrite Hd, He. cbn. split; [reflexivity | ].
      eexists. split; reflexivity.
  - destruct (GetElement (sdf (this st)) "debug") as [debug | ];
      [ | intros H; discriminate H].
    destruct (GetElement debug "printToConsole") as [e | ];
      [ | intros H; discriminate H].
    change (@get string Get_string e) with (text e).
    intros Htrue. rewrite Htrue.
    cbn [fst snd this rosout loggerLevel rosInitialized]. simpl_this.
    destruct (GetElement debug "printDelayInSeconds") as [d | ].
    + cbn [fst snd this rosout loggerLevel rosInitialized]. simpl_this.
      destruct (Qle_bool (get d) 0.0); cbn; [intros H; discriminate H | reflexivity].
    + cbn. reflexivity.
Qed.

End LoadersMore.

(** ** More on the update handler and the callbacks *)

Section HandlerMore.

Context {Manager : Type} {API : Api Manager}.

Implicit Types (st : Process Manager) (p : GripperPlugin Manager).

Lemma set_force_at_names (i : nat) (f : Q) (l : list Joint) :
  map jointName (set_force_at i f l) = map jointName l /\
  map angle (set_force_at i f l) = map angle l.
Proof.
  revert i. induction l as [ | j l IH]; intros i;
    [destruct i; split; reflexivity | ].
  destruct i as [ | i]; cbn; [split; reflexivity | ].
  destruct (IH i) as [Hn Ha]. rewrite Hn, Ha. split; reflexivity.
Qed.

Lemma SetForce_frame (q : JointPtr) (f : Q) (m : Model) :
  GetName (SetForce q f m) = GetName m /\
  GetWorld (SetForce q f m) = GetWorld m /\
  map jointName (joints (SetForce q f m)) = map jointName (joints m) /\
  map angle (joints (SetForce q f m)) = map angle (joints m).
Proof.
  destruct q as [i | ]; cbn; [ | repeat split; reflexivity].
  destruct (set_force_at_names i f (joints m)) as [Hn Ha].
  repeat split; assumption.
Qed.

Lemma applied_frame p (forces : GripperForces) :
  GetName (applied p forces) = GetName (model p) /\
  GetWorld (applied p forces) = GetWorld (model p) /\
  map jointName (joints (applied p forces)) = map jointName (joints (model p)) /\
  map angle (joints (applied p forces)) = map angle (joints (model p)).
Proof.
  unfold applied.
  repeat match goal with
         | |- context [SetForce ?q ?f ?m] =>
           let H := fresh "H" in
           pose proof (SetForce_frame q f m) as H;
           destruct H as (-> & -> & -> & ->)
         end.
  repeat split; reflexivity.
Qed.

Lemma plugin_eta p :
  set_model (model p)
    (set_gripperManager (gripperManager p)
       (set_previousUpdateTime (previousUpdateTime p)
          (set_previousDebugUpdateTime (previousDebugUpdateTime p) p))) = p.
Proof. destruct p; reflexivity. Qed.

(** X12: a poll always returns, and it can change only four members of the
    plugin object: the model, the manager and the times of the last control
    update and of the last debug print.  In the model it changes neither
    the name, nor the world, nor the names and the angles of the joints: it
    only writes forces.  It leaves the logger level as it was and hands
    rosconsole nothing but debug-level statements. *)
Theorem handler_frame st :
  let r := updateWorldEventHandler st in
  let p' := this (snd r) in
  fst r = Returned tt /\
  p' = set_model (model p')
         (set_gripperManager (gripperManager p')
            (set_previousUpdateTime (previousUpdateTime p')
               (set_previousDebugUpdateTime (previousDebugUpdateTime p') (this st)))) /\
  GetName (model p') = GetName (model (this st)) /\
  GetWorld (model p') = GetWorld (model (this st)) /\
  map jointName (joints (model p')) = map jointName (joints (model (this st))) /\
  map angle (joints (model p')) = map angle (joints (model (this st))) /\
  loggerLevel (snd r) = loggerLevel st /\
  rosInitialized (snd r) = rosInitialized st /\
  exists news, rosout (snd r) = (rosout st ++ news)%list /\
               Forall (fun l => level l = LDebug) news.
Proof.
  intros r p'. subst p' r.
  destruct (Qlt_le_dec (sinceControl (this st)) (updatePeriod (this st))) as [Hlt | Hge].
  - rewrite (handler_closed st Hlt). cbn [fst snd].
    split; [reflexivity | ]. split; [symmetry; apply plugin_eta | ].
    repeat (split; [reflexivity | ]).
    exists []. split; [symmetry; apply app_nil_r | constructor].
  - destruct (handler_open st Hge) as (desired & l & _ & _ & _ & Hsnap & Hrun).
    rewrite Hrun. cbn [fst snd]. clear Hrun.
    destruct Hsnap as (Hlevel & _).
    assert (Hmodel : exists forces manager',
               controlled (this st) desired =
               set_model (applied (this st) forces)
                 (set_gripperManager manager'
                    (set_previousUpdateTime (now (this st)) (this st)))).
    { unfold controlled.
      destruct (getForces (gripperManager (this st)) desired (measured (this st)))
        as [forces manager'].
      exists forces, manager'. reflexivity. }
    destruct Hmodel as (forces & manager' & ->).
    destruct (applied_frame (this st) forces) as (Hn & Hw & Hjn & Hja).
    split; [reflexivity | ].
    destruct (Qle_bool (debugUpdatePeriod (this st)) (sinceDebug (this st)));
      cbn [this rosout loggerLevel rosInitialized]; simpl_this.
    + split; [reflexivity | ].
      repeat (split; [first [assumption | reflexivity] | ]).
      destruct (isDebuggingModeActive (this st)).
      * exists [l]. split; [reflexivity | ]. constructor; [exact Hlevel | constructor].
      * exists []. split; [symmetry; apply app_nil_r | constructor].
    + split; [reflexivity | ].
      repeat (split; [first [assumption | reflexivity] | ]).
      exists []. split; [symmetry; apply app_nil_r | constructor].
Qed.

Lemma nth_error_set_force_at (i : nat) (f : Q) (l : list Joint) (k : nat) :
  nth_error (set_force_at i f l) k =
  if Nat.eqb i k then option_map (with_force f) (nth_error l k) else nth_error l k.
Proof.
  revert i k. induction l as [ | j l IH]; intros i k.
  - destruct i; destruct k; cbn; try reflexivity;
      match goal with |- context [if ?c then _ else _] => destruct c end; reflexivity.
  - destruct i as [ | i]; destruct k as [ | k]; cbn; try reflexivity.
    apply IH.
Qed.

Lemma deref_SetForce_same (q : JointPtr) (f : Q) (m : Model) :
  deref (SetForce q f m) q = option_map (with_force f) (deref m q).
Proof.
  destruct q as [i | ]; cbn; [ | reflexivity].
  rewrite nth_error_set_force_at, Nat.eqb_refl. reflexivity.
Qed.

Lemma deref_SetForce_other (q ptr : JointPtr) (f : Q) (m : Model) :
  q <> ptr -> deref (SetForce q f m) ptr = deref m ptr.
Proof.
  intros Hne. destruct q as [i | ]; [ | reflexivity].
  destruct ptr as [k | ]; cbn; [ | reflexivity].
  rewrite nth_error_set_force_at.
  destruct (Nat.eqb i k) eqn:E; [ | reflexivity].
  apply Nat.eqb_eq in E. subst k. exfalso. apply Hne. reflexivity.
Qed.

Lemma JointPtr_eq_dec (a b : JointPtr) : {a = b} + {a <> b}.
Proof. decide equality. apply Nat.eq_dec. Qed.

Lemma overwritten_force (q ptr : JointPtr) (f g : Q) (m : Model) :
  option_map (with_force f) (deref (SetForce q g m) ptr) =
  option_map (with_force f) (deref m ptr).
Proof.
  destruct (JointPtr_eq_dec q ptr) as [-> | Hne].
  - rewrite deref_SetForce_same. destruct (deref m ptr); reflexivity.
  - rewrite deref_SetForce_other by exact Hne. reflexivity.
Qed.

(** X13: where the forces land.  After a poll on which the control gate
    fires, the joint that the right finger pointer designates holds the
    right finger force; the joint of the left finger pointer holds the left
    finger force when that pointer differs from the right one; the joint of
    the wrist pointer holds the wrist force when that pointer differs from
    the other two; every other joint is as it was.  A pointer that
    designates no joint receives nothing. *)
Theorem forces_reach_joints st :
  updatePeriod (this st) <= sinceControl (this st) ->
  let p := this st in
  let m' := model (this (snd (updateWorldEventHandler st))) in
  exists desired,
    let forces := fst (getForces (gripperManager p) desired (measured p)) in
    deref m' (rightFingerJoint p) =
      option_map (with_force (rightFingerForce forces))
                 (deref (model p) (rightFingerJoint p)) /\
    (leftFingerJoint p <> rightFingerJoint p ->
       deref m' (leftFingerJoint p) =
         option_map (with_force (leftFingerForce forces))
                    (deref (model p) (leftFingerJoint p))) /\
    (wristJoint p <> leftFingerJoint p -> wristJoint p <> rightFingerJoint p ->
       deref m' (wristJoint p) =
         option_map (with_force (wristForce forces))
                    (deref (model p) (wristJoint p))) /\
    (forall ptr,
        ptr <> wristJoint p -> ptr <> leftFingerJoint p -> ptr <> rightFingerJoint p ->
        deref m' ptr = deref (model p) ptr).
Proof.
  intros Hge p m'. subst p m'.
  destruct (handler_open st Hge) as (desired & l & _ & _ & _ & _ & Hrun).
  rewrite Hrun. cbn [snd]. clear Hrun. exists desired.
  unfold controlled.
  destruct (getForces (gripperManager (this st)) desired (measured (this st)))
    as [forces manager'].
  cbn [fst].
  assert (Hm : model (this (if Qle_bool (debugUpdatePeriod (this st)) (sinceDebug (this st))
                     then mkProcess
                            (set_previousDebugUpdateTime (now (this st))
                               (set_model (applied (this st) forces)
                                  (set_gripperManager manager'
                                     (set_previousUpdateTime (now (this st)) (this st)))))
                            (if isDebuggingModeActive (this st)
                             then (rosout st ++ [l])%list else rosout st)
                            (loggerLevel st) (rosInitialized st)
                     else mkProcess
                            (set_model (applied (this st) forces)
                               (set_gripperManager manager'
                                  (set_previousUpdateTime (now (this st)) (this st))))
                            (rosout st) (loggerLevel st) (rosInitialized st)))
               = applied (this st) forces).
  { destruct (Qle_bool (debugUpdatePeriod (this st)) (sinceDebug (this st)));
      reflexivity. }
  rewrite Hm. clear Hm. unfold applied.
  split; [rewrite deref_SetForce_same, !overwritten_force; reflexivity | ].
  split; [ | split].
  - intros Hlr.
    rewrite deref_SetForce_other by (intros H; apply Hlr; symmetry; exact H).
    rewrite deref_SetForce_same, overwritten_force. reflexivity.
  - intros Hwl Hwr.
    rewrite deref_SetForce_other by (intros H; apply Hwr; symmetry; exact H).
    rewrite deref_SetForce_other by (intros H; apply Hwl; symmetry; exact H).
    apply deref_SetForce_same.
  - intros ptr Hw Hl Hr.
    rewrite !deref_SetForce_other by (intros H; symmetry in H; contradiction).
    reflexivity.
Qed.

(** X14: the callbacks keep only the latest value.  After the callbacks of
    any sequence of messages have run, the wrist target is the data of the
    last wrist message and the finger target the data of the last finger
    message, each left as it was when the sequence has no message for it;
    nothing else in the process has changed. *)
Theorem deliver_keeps_latest (msgs : list (Callback * Q)) st :
  deliver msgs st =
  (Returned tt,
   mkProcess
     (set_desiredWristAngle
        (latest setWristAngleHandler_cb msgs (desiredWristAngle (this st)))
        (set_desiredFingerAngle
           (latest setFingerAngleHandler_cb msgs (desiredFingerAngle (this st)))
           (this st)))
     (rosout st) (loggerLevel st) (rosInitialized st)).
Proof.
  revert st. induction msgs as [ | [cb data] rest IH]; intros st.
  - cbn. unfold ret. f_equal. destruct st as [p ? ? ?]. cbn. f_equal.
    destruct p; reflexivity.
  - cbn [deliver]. unfold bind.
    destruct cb; cbn [invoke]; unfold setWristAngleHandler, setFingerAngleHandler, assign;
      rewrite IH; reflexivity.
Qed.

(** X15: however many polls come early, nothing is computed.  As long as
    every poll sees a simulated time less than one update period after the
    last control update, the process after the polls is the one the physics
    engine alone would have left: the manager, the two times and the
    statements handed to rosconsole are as before, and the model is the
    last one the engine produced, with no force written by the plugin. *)
Theorem early_polls_do_nothing (ms : list Model) st :
  Forall (fun m => GetSimTime (GetWorld m) - previousUpdateTime (this st)
                   < updatePeriod (this st)) ms ->
  polls ms st = fold_left (fun s m => physics m s) ms st.
Proof.
  revert st. induction ms as [ | m rest IH]; intros st Hall; [reflexivity | ].
  inversion Hall as [ | m' rest' Hm Hrest]; subst.
  cbn [polls fold_left].
  rewrite handler_closed by exact Hm. cbn [snd].
  apply IH. exact Hrest.
Qed.

End HandlerMore.

(** * Examples

    Each statement above that has a premise is run here on a concrete
    configuration or poll, with the manager of the spec and the conversions
    of [Examples]. *)

#[local] Existing Instance spec_Api.
#[local] Existing Instance Examples.Get_float.
#[local] Existing Instance Examples.Get_Vector3.
#[local] Existing Instance Examples.Get_Vector2d.

Ltac qcompare := unfold Qle, Qlt; vm_compute; first [reflexivity | discriminate].

(** The default settings, setpoint 1 and measurement 0: the raw force 2.5
    is within the limits. *)
Lemma compute_output_within_limits_example :
  0 < dt Examples.default_settings /\
  min Examples.default_settings <= max Examples.default_settings /\
  -10 <= fst (compute (init Examples.default_settings) 1 0) /\
  fst (compute (init Examples.default_settings) 1 0) <= 10.
Proof.
  split; [qcompare | ]. split; [qcompare | ].
  apply (compute_output_within_limits (init Examples.default_settings) 1 0); qcompare.
Defined.

(** Finger opening 1 and wrist angle 1/2 delivered before a due poll. *)
Lemma desired_state_mirrors_finger_opening_example :
  updatePeriod (this Examples.poll_due) <= sinceControl (this Examples.poll_due) /\
  desiredFingerAngle
    (this (snd (updateWorldEventHandler
                  (snd (setWristAngleHandler (1 # 2)
                          (snd (setFingerAngleHandler 1 Examples.poll_due)))))))
  = 1.
Proof.
  split; [qcompare | ].
  apply (desired_state_mirrors_finger_opening Examples.poll_due 1 (1 # 2)).
  qcompare.
Defined.

(** A poll 0.05 s after the last control update, and one 4 s after it. *)
Lemma control_gate_example :
  (sinceControl (this Examples.poll_closed) < updatePeriod (this Examples.poll_closed) /\
   updateWorldEventHandler Examples.poll_closed = (Returned tt, Examples.poll_closed)) /\
  (updatePeriod (this Examples.poll_due) <= sinceControl (this Examples.poll_due) /\
   previousUpdateTime (this (snd (updateWorldEventHandler Examples.poll_due))) = 5).
Proof.
  split.
  - split; [qcompare | ].
    apply (proj1 (control_gate Examples.poll_closed)). qcompare.
  - split; [qcompare | ].
    apply (proj2 (control_gate Examples.poll_due)). qcompare.
Defined.

(** C3 as stated fails.  At time 5, with the last debug print at time 1 and
    a debug period of 3 s, the debug gate is due; but the last control
    update was 0.05 s ago, the handler returns at once, prints nothing and
    keeps 1 as the time of the last debug print.  And on a poll where both
    gates are due while debugging mode is off, the time of the last debug
    print advances to 5 and no snapshot is printed. *)
Lemma debug_gate_not_independent :
  (debugUpdatePeriod (this Examples.poll_closed) <= sinceDebug (this Examples.poll_closed) /\
   isDebuggingModeActive (this Examples.poll_closed) = true /\
   rosout (snd (updateWorldEventHandler Examples.poll_closed)) = [] /\
   previousDebugUpdateTime (this (snd (updateWorldEventHandler Examples.poll_closed))) = 1 /\
   ~ previousDebugUpdateTime (this (snd (updateWorldEventHandler Examples.poll_closed)))
     == now (this Examples.poll_closed)) /\
  (debugUpdatePeriod (this Examples.poll_due_quiet)
   <= sinceDebug (this Examples.poll_due_quiet) /\
   previousDebugUpdateTime (this (snd (updateWorldEventHandler Examples.poll_due_quiet))) = 5 /\
   rosout (snd (updateWorldEventHandler Examples.poll_due_quiet)) = []).
Proof.
  split.
  - split; [qcompare | ]. split; [reflexivity | ]. split; [reflexivity | ].
    split; [reflexivity | ]. vm_compute. discriminate.
  - split; [qcompare | ]. split; reflexivity.
Qed.

(** The three cases of the nested debug gate. *)
Lemma debug_gate_inside_control_gate_example :
  (sinceControl (this Examples.poll_closed) < updatePeriod (this Examples.poll_closed) /\
   rosout (snd (updateWorldEventHandler Examples.poll_closed)) = []) /\
  (updatePeriod (this Examples.poll_early_debug)
   <= sinceControl (this Examples.poll_early_debug) /\
   sinceDebug (this Examples.poll_early_debug)
   < debugUpdatePeriod (this Examples.poll_early_debug) /\
   previousDebugUpdateTime (this (snd (updateWorldEventHandler Examples.poll_early_debug)))
   = 4) /\
  (updatePeriod (this Examples.poll_due) <= sinceControl (this Examples.poll_due) /\
   debugUpdatePeriod (this Examples.poll_due) <= sinceDebug (this Examples.poll_due) /\
   previousDebugUpdateTime (this (snd (updateWorldEventHandler Examples.poll_due))) = 5).
Proof.
  split; [ | split].
  - split; [qcompare | ].
    apply (proj1 (debug_gate_inside_control_gate Examples.poll_closed)). qcompare.
  - split; [qcompare | ]. split; [qcompare | ].
    apply (proj1 (proj2 (debug_gate_inside_control_gate Examples.poll_early_debug)));
      qcompare.
  - split; [qcompare | ]. split; [qcompare | ].
    apply (proj2 (proj2 (debug_gate_inside_control_gate Examples.poll_due)));
      qcompare.
Defined.

(** A wrist limits pair (10, -10), handed to the constructor and written in
    the configuration. *)
Lemma construction_fails_fast_example :
  (max (mkPIDSettings 1 0 0 (1 # 10) 10 (-10)) < min (mkPIDSettings 1 0 0 (1 # 10) 10 (-10)) /\
   exists status,
     spec_construct Examples.names (mkPIDSettings 1 0 0 (1 # 10) 10 (-10))
                    Examples.default_settings = Exited status) /\
  (GetElement (Examples.config_limits "10 -10") ("wrist" ++ "ForceLimits")
   = Some (Examples.leaf "10 -10") /\
   y2 (get (Examples.leaf "10 -10")) < x2 (get (Examples.leaf "10 -10")) /\
   returns (fst (Load (Examples.rover 0) (Examples.config_limits "10 -10")
                      (Examples.fresh (Examples.node [])))) = false).
Proof.
  split.
  - split; [qcompare | ].
    apply (proj1 construction_fails_fast). left. right. qcompare.
  - split; [reflexivity | ]. split; [qcompare | ].
    apply (proj2 construction_fails_fast _ _ _ "wrist" (Examples.leaf "10 -10")).
    + left. reflexivity.
    + reflexivity.
    + qcompare.
Defined.

(** No updateRate tag; updateRate -5; updateRate 50. *)
Lemma loadUpdatePeriod_cases_example :
  (GetElement (sdf (this (Examples.fresh Examples.config_plain))) "updateRate" = None /\
   updatePeriod (this (snd (loadUpdatePeriod (Examples.fresh Examples.config_plain))))
   == 1 / 1000) /\
  (get (Examples.leaf "-5") <= 0 /\
   fst (loadUpdatePeriod (Examples.fresh (Examples.config_rate "-5"))) = Exited 1) /\
  (0 < get (Examples.leaf "50") /\
   updatePeriod (this (snd (loadUpdatePeriod (Examples.fresh (Examples.config_rate "50")))))
   == 1 / get (Examples.leaf "50")).
Proof.
  split; [ | split].
  - split; [reflexivity | ].
    apply (proj1 (loadUpdatePeriod_cases (Examples.fresh Examples.config_plain))).
    reflexivity.
  - split; [qcompare | ].
    apply (proj1 (proj2 (loadUpdatePeriod_cases
                           (Examples.fresh (Examples.config_rate "-5"))))
                 (Examples.leaf "-5")).
    + reflexivity.
    + qcompare.
  - split; [qcompare | ].
    apply (proj2 (proj2 (loadUpdatePeriod_cases
                           (Examples.fresh (Examples.config_rate "50"))))
                 (Examples.leaf "50")).
    + reflexivity.
    + qcompare.
Defined.

(** A configuration with neither fingerPID nor fingerForceLimits. *)
Lemma loadPIDSettings_defaults_example :
  ("finger" = "wrist" \/ "finger" = "finger") /\
  exists s,
    fst (loadPIDSettings "finger" (Examples.fresh Examples.config_plain)) = Returned s /\
    Kp s == 2.5 /\ min s == -10 /\ max s == 10.
Proof.
  split; [right; reflexivity | ].
  destruct (loadPIDSettings_defaults "finger" (Examples.fresh Examples.config_plain)
                                     (or_intror eq_refl))
    as (s & news & Hr & _ & _ & _ & Hgains & Hlimits).
  exists s. split; [exact Hr | ].
  destruct (Hgains eq_refl) as (Hp & _).
  destruct (Hlimits eq_refl) as (Hmin & Hmax).
  split; [exact Hp | ]. split; [exact Hmin | exact Hmax].
Defined.

(** printToConsole "false" with a delay of -1; "true" without delay; "true"
    with delay 0; "true" with delay 5. *)
Lemma loadDebugMode_cases_example :
  (printToConsole_true
     (Examples.config_debug "false" [("printDelayInSeconds", Examples.leaf "-1")]) = false /\
   fst (loadDebugMode
          (Examples.fresh
             (Examples.config_debug "false"
                                    [("printDelayInSeconds", Examples.leaf "-1")])))
   = Returned tt) /\
  (printDelayInSeconds (Examples.config_debug "true" []) = None /\
   debugUpdatePeriod
     (this (snd (loadDebugMode (Examples.fresh (Examples.config_debug "true" [])))))
   = 3.0) /\
  (get (Examples.leaf "0") <= 0 /\
   fst (loadDebugMode
          (Examples.fresh
             (Examples.config_debug "true" [("printDelayInSeconds", Examples.leaf "0")])))
   = Exited 1) /\
  (0 < get (Examples.leaf "5") /\
   debugUpdatePeriod
     (this (snd (loadDebugMode
                   (Examples.fresh
                      (Examples.config_debug "true"
                         [("printDelayInSeconds", Examples.leaf "5")])))))
   = 5).
Proof.
  split; [ | split; [ | split]].
  - split; [reflexivity | ].
    apply (proj1 (loadDebugMode_cases
                    (Examples.fresh
                       (Examples.config_debug "false"
                          [("printDelayInSeconds", Examples.leaf "-1")])))).
    reflexivity.
  - split; [reflexivity | ].
    destruct (proj1 (proj2 (loadDebugMode_cases
                              (Examples.fresh (Examples.config_debug "true" []))))
                    eq_refl eq_refl) as [_ Hthis].
    rewrite Hthis. reflexivity.
  - split; [qcompare | ].
    apply (proj1 (proj2 (proj2 (loadDebugMode_cases
                                  (Examples.fresh
                                     (Examples.config_debug "true"
                                        [("printDelayInSeconds", Examples.leaf "0")])))))
                 (Examples.leaf "0") eq_refl eq_refl).
    qcompare.
  - split; [qcompare | ].
    assert (Hpos : 0 < get (Examples.leaf "5")) by qcompare.
    destruct (proj2 (proj2 (proj2 (loadDebugMode_cases
                                     (Examples.fresh
                                        (Examples.config_debug "true"
                                           [("printDelayInSeconds", Examples.leaf "5")])))))
                    (Examples.leaf "5") eq_refl eq_refl Hpos) as [_ Hthis].
    rewrite Hthis. reflexivity.
Defined.



(** The settings loaded by a plugin whose period is 1/10; [Load] on the
    plain configuration; and the rate +infinity. *)
Lemma infinite_rate_gives_zero_dt_example :
  (loadPIDSettings "wrist" Examples.poll_due
   = (Returned Examples.default_settings, snd (loadPIDSettings "wrist" Examples.poll_due)) /\
   dt Examples.default_settings = 1 # 10) /\
  (Load (Examples.rover 0) Examples.config_plain (Examples.fresh (Examples.node []))
   = (Returned tt,
      snd (Load (Examples.rover 0) Examples.config_plain
                (Examples.fresh (Examples.node [])))) /\
   updatePeriod
     (this (snd (Load (Examples.rover 0) Examples.config_plain
                      (Examples.fresh (Examples.node [])))))
   = 1.0 / 1000.0) /\
  (Ieee.loadUpdatePeriod (Some Ieee.PlusInfinity) = Returned (Ieee.Finite 0) /\
   Ieee.lt (Ieee.Finite 0) (Ieee.Finite 0) = false).
Proof.
  pose proof (@infinite_rate_gives_zero_dt GripperManager _ _ _) as (H1 & H2 & _ & H4 & _).
  assert (Hrun : Load (Examples.rover 0) Examples.config_plain
                      (Examples.fresh (Examples.node []))
                 = (Returned tt,
                    snd (Load (Examples.rover 0) Examples.config_plain
                              (Examples.fresh (Examples.node [])))))
    by (vm_compute; reflexivity).
  split; [ | split].
  - split; [reflexivity | ].
    exact (H1 "wrist" Examples.poll_due Examples.default_settings
              (snd (loadPIDSettings "wrist" Examples.poll_due)) eq_refl).
  - split; [exact Hrun | ].
    destruct (H2 spec_Api _ _ _ _ Hrun) as (Hperiod & _). exact Hperiod.
  - split; [reflexivity | ].
    apply (H4 Ieee.PlusInfinity (Ieee.Finite 0) eq_refl). left. reflexivity.
Defined.

(** The plain configuration on the rover, with ROS initialized. *)
Lemma Load_returns_iff_example :
  returns (fst (Load (Examples.rover 0) Examples.config_plain
                     (Examples.fresh (Examples.node [])))) = true /\
  well_configured (Examples.rover 0) Examples.config_plain true.
Proof.
  assert (Hrun : returns (fst (Load (Examples.rover 0) Examples.config_plain
                                    (Examples.fresh (Examples.node [])))) = true)
    by (vm_compute; reflexivity).
  split; [exact Hrun | ].
  apply (proj1 (Load_returns_iff (Examples.rover 0) Examples.config_plain
                                 (Examples.fresh (Examples.node [])))).
  exact Hrun.
Defined.

(** A configuration without the wristJoint tag. *)
Lemma Load_exit_reported_example :
  Load (Examples.rover 0) Examples.config_no_wristJoint (Examples.fresh (Examples.node []))
  = (Exited 1,
     snd (Load (Examples.rover 0) Examples.config_no_wristJoint
               (Examples.fresh (Examples.node [])))) /\
  (1%Z = 1%Z /\
   ends_with_error
     (snd (Load (Examples.rover 0) Examples.config_no_wristJoint
                (Examples.fresh (Examples.node [])))) \/
   configured_manager (Examples.rover 0) Examples.config_no_wristJoint = Exited 1).
Proof.
  assert (Hrun : Load (Examples.rover 0) Examples.config_no_wristJoint
                      (Examples.fresh (Examples.node []))
                 = (Exited 1,
                    snd (Load (Examples.rover 0) Examples.config_no_wristJoint
                              (Examples.fresh (Examples.node [])))))
    by (vm_compute; reflexivity).
  split; [exact Hrun | ].
  apply (Load_exit_reported _ _ _ _ _ Hrun).
Defined.

(** Without the fingerTopic tag, and without ROS. *)
Lemma Load_exit_leaves_no_subscription_example :
  (returns (fst (Load (Examples.rover 0) Examples.config_no_fingerTopic
                      (Examples.fresh (Examples.node [])))) = false /\
   wristAngleSubscriber
     (this (snd (Load (Examples.rover 0) Examples.config_no_fingerTopic
                      (Examples.fresh (Examples.node []))))) = None) /\
  (rosInitialized (Examples.without_ros (Examples.fresh (Examples.node []))) = false /\
   returns (fst (Load (Examples.rover 0) Examples.config_plain
                      (Examples.without_ros (Examples.fresh (Examples.node [])))))
   = false).
Proof.
  assert (Hexit : returns (fst (Load (Examples.rover 0) Examples.config_no_fingerTopic
                                     (Examples.fresh (Examples.node [])))) = false)
    by (vm_compute; reflexivity).
  split.
  - split; [exact Hexit | ].
    destruct (proj1 (Load_exit_leaves_no_subscription
                       (Examples.rover 0) Examples.config_no_fingerTopic
                       (Examples.fresh (Examples.node []))) Hexit) as (Hw & _).
    exact Hw.
  - split; [reflexivity | ].
    destruct (proj1 (proj2 (Load_exit_leaves_no_subscription
                              (Examples.rover 0) Examples.config_plain
                              (Examples.without_ros (Examples.fresh (Examples.node [])))))
                    eq_refl) as (Hno & _).
    exact Hno.
Defined.

(** After loading the plain configuration, a poll measures the angles 0,
    1/4 and -1/4 of the three joints of the rover. *)
Lemma Load_resolves_joints_example :
  Load (Examples.rover 0) Examples.config_plain (Examples.fresh (Examples.node []))
  = (Returned tt,
     snd (Load (Examples.rover 0) Examples.config_plain
               (Examples.fresh (Examples.node [])))) /\
  exists jw jl jr,
    jointName jw = "wrist" /\ jointName jl = "left_finger" /\
    jointName jr = "right_finger" /\
    measured (this (snd (Load (Examples.rover 0) Examples.config_plain
                              (Examples.fresh (Examples.node [])))))
    = {| wristAngle := angle jw; leftFingerAngle := angle jl;
         rightFingerAngle := angle jr |}.
Proof.
  assert (Hrun : Load (Examples.rover 0) Examples.config_plain
                      (Examples.fresh (Examples.node []))
                 = (Returned tt,
                    snd (Load (Examples.rover 0) Examples.config_plain
                              (Examples.fresh (Examples.node [])))))
    by (vm_compute; reflexivity).
  split; [exact Hrun | ].
  destruct (Load_resolves_joints _ _ _ _ Hrun)
    as (jw & jl & jr & _ & Hw & _ & Hl & _ & Hr & Hm).
  exists jw, jl, jr.
  split; [exact Hw | ]. split; [exact Hl | ]. split; [exact Hr | exact Hm].
Defined.

Lemma Load_wires_subscriptions_example :
  Load (Examples.rover 0) Examples.config_plain (Examples.fresh (Examples.node []))
  = (Returned tt,
     snd (Load (Examples.rover 0) Examples.config_plain
               (Examples.fresh (Examples.node [])))) /\
  rosNode (this (snd (Load (Examples.rover 0) Examples.config_plain
                           (Examples.fresh (Examples.node [])))))
  = Some "swarmie_gripper".
Proof.
  assert (Hrun : Load (Examples.rover 0) Examples.config_plain
                      (Examples.fresh (Examples.node []))
                 = (Returned tt,
                    snd (Load (Examples.rover 0) Examples.config_plain
                              (Examples.fresh (Examples.node [])))))
    by (vm_compute; reflexivity).
  split; [exact Hrun | ].
  destruct (Load_wires_subscriptions _ _ _ _ Hrun) as (_ & _ & Hnode & _).
  exact Hnode.
Defined.


(** Loading with printToConsole "true" and a delay of 5. *)
Lemma Load_debug_configuration_example :
  Load (Examples.rover 0)
       (Examples.config_debug "true" [("printDelayInSeconds", Examples.leaf "5")])
       (Examples.fresh (Examples.node []))
  = (Returned tt,
     snd (Load (Examples.rover 0)
               (Examples.config_debug "true" [("printDelayInSeconds", Examples.leaf "5")])
               (Examples.fresh (Examples.node [])))) /\
  isDebuggingModeActive
    (this (snd (Load (Examples.rover 0)
                     (Examples.config_debug "true"
                        [("printDelayInSeconds", Examples.leaf "5")])
                     (Examples.fresh (Examples.node [])))))
  = true /\
  debugUpdatePeriod
    (this (snd (Load (Examples.rover 0)
                     (Examples.config_debug "true"
                        [("printDelayInSeconds", Examples.leaf "5")])
                     (Examples.fresh (Examples.node [])))))
  == 5.
Proof.
  assert (Hrun : Load (Examples.rover 0)
                      (Examples.config_debug "true"
                         [("printDelayInSeconds", Examples.leaf "5")])
                      (Examples.fresh (Examples.node []))
                 = (Returned tt,
                    snd (Load (Examples.rover 0)
                              (Examples.config_debug "true"
                                 [("printDelayInSeconds", Examples.leaf "5")])
                              (Examples.fresh (Examples.node [])))))
    by (vm_compute; reflexivity).
  assert (Htrue : printToConsole_true
                    (Examples.config_debug "true"
                       [("printDelayInSeconds", Examples.leaf "5")]) = true)
    by (vm_compute; reflexivity).
  destruct (Load_debug_configuration _ _ _ _ Hrun) as (Hflag & Hon & _).
  destruct (Hon Htrue) as (Hdelay & _).
  split; [exact Hrun | ].
  split; [rewrite Hflag; exact Htrue | ].
  rewrite Hdelay. vm_compute. reflexivity.
Defined.

(** The tag "elbow". *)
Lemma loadPIDSettings_invalid_tag_example :
  "elbow" <> "wrist" /\ "elbow" <> "finger" /\
  fst (loadPIDSettings "elbow" (Examples.fresh Examples.config_plain)) = Exited 1.
Proof.
  assert (Hw : "elbow" <> "wrist") by (intros H; discriminate H).
  assert (Hf : "elbow" <> "finger") by (intros H; discriminate H).
  split; [exact Hw | ]. split; [exact Hf | ].
  apply (loadPIDSettings_invalid_tag "elbow" (Examples.fresh Examples.config_plain) Hw Hf).
Defined.

(** The wrist group of a configuration with wristForceLimits and without
    wristPID: one info statement. *)
Lemma loadPIDSettings_mixes_example :
  ("wrist" = "wrist" \/ "wrist" = "finger") /\
  exists s news,
    fst (loadPIDSettings "wrist" (Examples.fresh (Examples.config_limits "-3 3")))
    = Returned s /\
    rosout (snd (loadPIDSettings "wrist" (Examples.fresh (Examples.config_limits "-3 3"))))
    = news /\
    List.length news = 1%nat.
Proof.
  split; [left; reflexivity | ].
  destruct (loadPIDSettings_mixes "wrist" (Examples.fresh (Examples.config_limits "-3 3"))
                                  (or_introl eq_refl))
    as (s & news & Hr & _ & _ & _ & Hout & Hlen & _).
  exists s, news. split; [exact Hr | ]. split; [exact Hout | exact Hlen].
Defined.

(** The wristJoint tag of the plain configuration names the first joint of
    the rover. *)
Lemma loadJoint_resolves_example :
  GetElement (sdf (this (Examples.fresh Examples.config_plain))) "wristJoint"
  = Some (Examples.leaf "wrist") /\
  GetJoint (model (this (Examples.fresh Examples.config_plain)))
           (get (Examples.leaf "wrist")) = Some 0%nat /\
  loadJoint "wristJoint" (Examples.fresh Examples.config_plain)
  = (Returned (Some 0%nat), Examples.fresh Examples.config_plain).
Proof.
  split; [reflexivity | ]. split; [reflexivity | ].
  apply (loadJoint_resolves "wristJoint" (Examples.leaf "wrist") 0
                            (Examples.fresh Examples.config_plain));
    reflexivity.
Defined.

(** printToConsole "false", "maybe", no debug tag, and "true". *)
Lemma loadDebugMode_diagnostics_example :
  (text (Examples.leaf "false") = "false" /\
   rosout (snd (loadDebugMode (Examples.fresh (Examples.config_debug "false" [])))) = []) /\
  (text (Examples.leaf "maybe") <> "true" /\ text (Examples.leaf "maybe") <> "false" /\
   loggerLevel (snd (loadDebugMode (Examples.fresh (Examples.config_debug "maybe" []))))
   = LInfo) /\
  (GetElement (sdf (this (Examples.fresh Examples.config_plain))) "debug" = None /\
   loggerLevel (snd (loadDebugMode (Examples.fresh Examples.config_plain))) = LInfo) /\
  (printToConsole_true (sdf (this (Examples.fresh (Examples.config_debug "true" []))))
   = true /\
   loggerLevel (snd (loadDebugMode (Examples.fresh (Examples.config_debug "true" []))))
   = LDebug).
Proof.
  split; [ | split; [ | split]].
  - split; [reflexivity | ].
    apply (proj1 (loadDebugMode_diagnostics
                    (Examples.fresh (Examples.config_debug "false" [])))
                 (Examples.node [("printToConsole", Examples.leaf "false")])
                 (Examples.leaf "false")); reflexivity.
  - assert (Ht : text (Examples.leaf "maybe") <> "true") by (intros H; discriminate H).
    assert (Hf : text (Examples.leaf "maybe") <> "false") by (intros H; discriminate H).
    split; [exact Ht | ]. split; [exact Hf | ].
    apply (proj1 (proj2 (loadDebugMode_diagnostics
                           (Examples.fresh (Examples.config_debug "maybe" []))))
                 (Examples.node [("printToConsole", Examples.leaf "maybe")])
                 (Examples.leaf "maybe") eq_refl eq_refl Ht Hf).
  - split; [reflexivity | ].
    apply (proj1 (proj2 (proj2 (loadDebugMode_diagnostics
                                  (Examples.fresh Examples.config_plain))))).
    left. reflexivity.
  - split; [reflexivity | ].
    apply (proj2 (proj2 (proj2 (loadDebugMode_diagnostics
                                  (Examples.fresh (Examples.config_debug "true" []))))));
      reflexivity.
Defined.

(** A due poll on the rover: the three pointers are distinct, and the joint
    at position 3, which the rover does not have, receives nothing. *)
Lemma forces_reach_joints_example :
  updatePeriod (this Examples.poll_due) <= sinceControl (this Examples.poll_due) /\
  deref (model (this (snd (updateWorldEventHandler Examples.poll_due)))) (Some 3%nat)
  = None.
Proof.
  split; [qcompare | ].
  destruct (forces_reach_joints Examples.poll_due) as (desired & _ & _ & _ & Hother);
    [qcompare | ].
  rewrite (Hother (Some 3%nat)); [reflexivity | | | ]; intros H; discriminate H.
Defined.

(** Two polls, at the times 5 and 5.01, after a control update at 4.95. *)
Lemma early_polls_do_nothing_example :
  Forall (fun m => GetSimTime (GetWorld m) - previousUpdateTime (this Examples.poll_closed)
                   < updatePeriod (this Examples.poll_closed))
         [Examples.rover 5; Examples.rover (501 # 100)] /\
  gripperManager
    (this (polls [Examples.rover 5; Examples.rover (501 # 100)] Examples.poll_closed))
  = Examples.manager.
Proof.
  assert (Hall : Forall (fun m => GetSimTime (GetWorld m)
                                  - previousUpdateTime (this Examples.poll_closed)
                                  < updatePeriod (this Examples.poll_closed))
                        [Examples.rover 5; Examples.rover (501 # 100)]).
  { constructor; [qcompare | ]. constructor; [qcompare | constructor]. }
  split; [exact Hall | ].
  rewrite (early_polls_do_nothing _ _ Hall). reflexivity.
Defined.
